(** * SLIP network driver (drivers/net/slip.c): a shallow embedding

    The driver frames IP datagrams on a serial line following RFC 1055.
    This development embeds the transmit path ([slip_transmit],
    [slip_txpoll], one iteration of [slip_txtask]), the receive path
    ([slip_receive], [slip_rxtask]), the network callbacks ([slip_ifup],
    [slip_ifdown], [slip_txavail]) and [slip_initialize], and states the
    framing properties over them.

    Conventions.
    - C integers are [Z]; a conversion to a sized type is written out
      ([uint8], [uint16], [int16]).
    - The two packet buffers are lists of bytes updated in place by index.
    - The serial line is a pair of byte streams: the bytes still to be read
      are an explicit argument of the receive functions, the bytes written
      are accumulated in the [tty_out] field of the [world].
    - Calls that leave the driver (the IP stack, the scheduler, the file
      system, the error log) are recorded in order in the [calls] field. *)

From Stdlib Require Import ZArith Lia List Bool.
From stdpp Require Import base numbers list.

Local Open Scope Z_scope.

(** ** Sized integers *)

Definition uint8 (x : Z) : Z := x mod 256.
Definition uint16 (x : Z) : Z := x mod 65536.
Definition int16 (x : Z) : Z := (x + 32768) mod 65536 - 32768.

Definition is_uint8 (b : Z) : Prop := 0 <= b < 256.

(** ** SLIP special character codes (octal 0300, 0333, 0334, 0335) *)

Definition SLIP_END : Z := 192.
Definition SLIP_ESC : Z := 219.
Definition SLIP_ESC_END : Z := 220.
Definition SLIP_ESC_ESC : Z := 221.

(** TX poll delay = 1 second = 1000000 microseconds. *)
Definition SLIP_WDDELAY : Z := 1 * 1000000.

Definition OK : Z := 0.
Definition SIGALRM : Z := 14.

(** ** Driver state *)

(** [dev.d_buf] points at one of the two buffers of the driver structure
    (or nowhere, after the [memset] of [slip_initialize]). *)
Inductive bufptr := NULLBUF | RXBUF | TXBUF.

(** The statistics updated by the NETDEV_* macros. *)
Record netdev_statistics_s := mk_stats {
  rx_packets : Z;
  rx_ipv4 : Z;
  rx_ipv6 : Z;
  rx_errors : Z;
  tx_packets : Z;
  tx_done : Z
}.

(** The part of [struct net_driver_s] the driver touches. *)
Record net_driver_s := mk_dev {
  d_buf : bufptr;
  d_len : Z;
  d_statistics : netdev_statistics_s
}.

Record slip_driver_s := mk_slip {
  bifup : bool;          (* true:ifup false:ifdown *)
  txnodelay : bool;      (* True: nxsig_usleep() not needed *)
  fd : Z;                (* TTY file descriptor (int16_t) *)
  rxlen : Z;             (* The number of bytes in rxbuf (uint16_t) *)
  rxpid : Z;             (* Receiver thread ID *)
  txpid : Z;             (* Transmitter thread ID *)
  waitsem : Z;           (* Count of the semaphore guarding the network *)
  dev : net_driver_s;    (* Interface understood by the network *)
  rxbuf : list Z;        (* uint8_t rxbuf[CONFIG_NET_SLIP_PKTSIZE + 2] *)
  txbuf : list Z         (* uint8_t txbuf[CONFIG_NET_SLIP_PKTSIZE + 2] *)
}.

(** Calls leaving the driver, in the order they are made. *)
Inductive call :=
| Nerr_protocol_violation (ch : Z)
| Nerr_open_failed (status : Z)
| Nerr_start_failed
| Sys_open (result : Z)
| Sys_close (fildes : Z)
| Sys_kthread_create (rx : bool) (result : Z)
| Sys_usleep (usec : Z)
| Sys_kill (pid : Z) (signo : Z)
| Net_register
| Net_ipv4_input (packet : list Z)
| Net_ipv6_input (packet : list Z)
| Net_devif_poll
| Net_devif_timer.

Record world := mk_world {
  priv : slip_driver_s;
  tty_out : list Z;
  calls : list call
}.

(** *** Field updates *)

Definition set_stats (f : netdev_statistics_s -> netdev_statistics_s)
    (d : net_driver_s) : net_driver_s :=
  mk_dev (d_buf d) (d_len d) (f (d_statistics d)).

Definition set_d_buf (b : bufptr) (d : net_driver_s) : net_driver_s :=
  mk_dev b (d_len d) (d_statistics d).

Definition set_d_len (n : Z) (d : net_driver_s) : net_driver_s :=
  mk_dev (d_buf d) n (d_statistics d).

Definition set_bifup (b : bool) (p : slip_driver_s) : slip_driver_s :=
  mk_slip b (txnodelay p) (fd p) (rxlen p) (rxpid p) (txpid p) (waitsem p)
    (dev p) (rxbuf p) (txbuf p).

Definition set_txnodelay (b : bool) (p : slip_driver_s) : slip_driver_s :=
  mk_slip (bifup p) b (fd p) (rxlen p) (rxpid p) (txpid p) (waitsem p)
    (dev p) (rxbuf p) (txbuf p).

Definition set_fd (v : Z) (p : slip_driver_s) : slip_driver_s :=
  mk_slip (bifup p) (txnodelay p) v (rxlen p) (rxpid p) (txpid p) (waitsem p)
    (dev p) (rxbuf p) (txbuf p).

Definition set_rxlen (v : Z) (p : slip_driver_s) : slip_driver_s :=
  mk_slip (bifup p) (txnodelay p) (fd p) v (rxpid p) (txpid p) (waitsem p)
    (dev p) (rxbuf p) (txbuf p).

Definition set_rxpid (v : Z) (p : slip_driver_s) : slip_driver_s :=
  mk_slip (bifup p) (txnodelay p) (fd p) (rxlen p) v (txpid p) (waitsem p)
    (dev p) (rxbuf p) (txbuf p).

Definition set_txpid (v : Z) (p : slip_driver_s) : slip_driver_s :=
  mk_slip (bifup p) (txnodelay p) (fd p) (rxlen p) (rxpid p) v (waitsem p)
    (dev p) (rxbuf p) (txbuf p).

Definition set_waitsem (v : Z) (p : slip_driver_s) : slip_driver_s :=
  mk_slip (bifup p) (txnodelay p) (fd p) (rxlen p) (rxpid p) (txpid p) v
    (dev p) (rxbuf p) (txbuf p).

Definition set_dev (d : net_driver_s) (p : slip_driver_s) : slip_driver_s :=
  mk_slip (bifup p) (txnodelay p) (fd p) (rxlen p) (rxpid p) (txpid p)
    (waitsem p) d (rxbuf p) (txbuf p).

Definition set_rxbuf (l : list Z) (p : slip_driver_s) : slip_driver_s :=
  mk_slip (bifup p) (txnodelay p) (fd p) (rxlen p) (rxpid p) (txpid p)
    (waitsem p) (dev p) l (txbuf p).

Definition set_txbuf (l : list Z) (p : slip_driver_s) : slip_driver_s :=
  mk_slip (bifup p) (txnodelay p) (fd p) (rxlen p) (rxpid p) (txpid p)
    (waitsem p) (dev p) (rxbuf p) l.

Definition on_priv (f : slip_driver_s -> slip_driver_s) (w : world) : world :=
  mk_world (f (priv w)) (tty_out w) (calls w).

Definition on_dev (f : net_driver_s -> net_driver_s) (w : world) : world :=
  on_priv (fun p => set_dev (f (dev p)) p) w.

Definition log_call (c : call) (w : world) : world :=
  mk_world (priv w) (tty_out w) (calls w ++ [c]).

(** *** The NETDEV_* statistics macros

    Modelled from the spec: the macros come from nuttx/net/netdev.h, which
    is not part of the driver; each one counts an event (packet sent,
    packet received, receive error, ...) in the statistics of the device. *)

Definition NETDEV_TXPACKETS : world -> world :=
  on_dev (set_stats (fun s => mk_stats (rx_packets s) (rx_ipv4 s) (rx_ipv6 s)
                                (rx_errors s) (tx_packets s + 1) (tx_done s))).

Definition NETDEV_TXDONE : world -> world :=
  on_dev (set_stats (fun s => mk_stats (rx_packets s) (rx_ipv4 s) (rx_ipv6 s)
                                (rx_errors s) (tx_packets s) (tx_done s + 1))).

Definition NETDEV_RXPACKETS : world -> world :=
  on_dev (set_stats (fun s => mk_stats (rx_packets s + 1) (rx_ipv4 s) (rx_ipv6 s)
                                (rx_errors s) (tx_packets s) (tx_done s))).

Definition NETDEV_RXIPV4 : world -> world :=
  on_dev (set_stats (fun s => mk_stats (rx_packets s) (rx_ipv4 s + 1) (rx_ipv6 s)
                                (rx_errors s) (tx_packets s) (tx_done s))).

Definition NETDEV_RXIPV6 : world -> world :=
  on_dev (set_stats (fun s => mk_stats (rx_packets s) (rx_ipv4 s) (rx_ipv6 s + 1)
                                (rx_errors s) (tx_packets s) (tx_done s))).

Definition NETDEV_RXERRORS : world -> world :=
  on_dev (set_stats (fun s => mk_stats (rx_packets s) (rx_ipv4 s) (rx_ipv6 s)
                                (rx_errors s + 1) (tx_packets s) (tx_done s))).

(** *** The gate *)

(** [slip_semtake] returns once the count has been decremented; the wait
    for a positive count is the scheduler's business and is not modelled. *)
Definition slip_semtake : world -> world :=
  on_priv (fun p => set_waitsem (waitsem p - 1) p).

Definition slip_semgive : world -> world :=
  on_priv (fun p => set_waitsem (waitsem p + 1) p).

(** ** Buffers *)

(** The byte at offset [i] of a buffer. Offsets past the end are outside
    the array in C; here they read as 0. *)
Definition peek (buf : list Z) (i : nat) : Z := nth i buf 0.

(** The [len] bytes starting at offset [start], as [write(fd, start, len)]
    reads them. *)
Definition slice (buf : list Z) (start len : nat) : list Z :=
  map (peek buf) (seq start len).

(** The array after [data] has been copied to its start; the array keeps
    its size. *)
Definition buf_fill (data buf : list Z) : list Z :=
  take (length buf) (data ++ drop (length data) buf).

(** The buffer [dev.d_buf] points at. *)
Definition dev_buffer (p : slip_driver_s) : list Z :=
  match d_buf (dev p) with
  | NULLBUF => []
  | RXBUF => rxbuf p
  | TXBUF => txbuf p
  end.

(** ** Transmit path *)

(** [slip_write]: the bytes reach the serial line in order. A write that
    is interrupted by a signal is retried, which the stream does not see. *)
Definition slip_write (buffer : list Z) (w : world) : world :=
  mk_world (priv w) (tty_out w ++ buffer) (calls w).

Definition slip_putc (ch : Z) (w : world) : world :=
  slip_write [uint8 ch] w.

(** The state of the scan of [slip_transmit]: [start] and [len] delimit the
    run of bytes not yet written. *)
Record txscan := mk_txscan {
  scan_start : nat;
  scan_len : nat;
  scan_world : world
}.

(** "Flush any unsent data": the write of the pending run, done at an
    escape and after the scan, [if (len > 0) slip_write(priv, start, len);] *)
Definition scan_flush (buf : list Z) (s : txscan) : world :=
  if (0 <? scan_len s)%nat
  then slip_write (slice buf (scan_start s) (scan_len s)) (scan_world s)
  else scan_world s.

(** The [while (remaining-- > 0)] loop. [src] is the offset of the byte
    under examination. *)
Fixpoint slip_transmit_loop (buf : list Z) (remaining : nat) (src : nat)
    (s : txscan) : txscan :=
  match remaining with
  | O => s
  | S remaining' =>
      let escape (esc : Z) :=
        (* Flush any unsent data *)
        let w1 := scan_flush buf s in
        (* Reset, then send the escape sequence *)
        let w2 := slip_putc esc (slip_putc SLIP_ESC w1) in
        mk_txscan (S src) 0 w2 in
      let s' :=
        if peek buf src =? SLIP_END then escape SLIP_ESC_END
        else if peek buf src =? SLIP_ESC then escape SLIP_ESC_ESC
        else mk_txscan (scan_start s) (S (scan_len s)) (scan_world s) in
      slip_transmit_loop buf remaining' (S src) s'
  end.

Definition slip_transmit (w : world) : world * Z :=
  let w := NETDEV_TXPACKETS w in
  let w := slip_putc SLIP_END w in
  let buf := dev_buffer (priv w) in
  let remaining := Z.to_nat (d_len (dev (priv w))) in
  let s := slip_transmit_loop buf remaining 0 (mk_txscan 0 0 w) in
  (* Now flush any unsent data, and send the END token *)
  let w := scan_flush buf s in
  let w := slip_putc SLIP_END w in
  let w := NETDEV_TXDONE w in
  let w := on_priv (set_txnodelay true) w in
  (w, OK).

(** ** Initial state and sample states *)

(** [memset(priv, 0, sizeof(struct slip_driver_s))], for buffers of
    [size] bytes. *)
Definition slip_zero (size : Z) : slip_driver_s :=
  mk_slip false false 0 0 0 0 0
    (mk_dev NULLBUF 0 (mk_stats 0 0 0 0 0 0))
    (replicate (Z.to_nat size) 0)
    (replicate (Z.to_nat size) 0).

(** The driver built with CONFIG_NET_SLIP_PKTSIZE = 296 (buffers of 298
    bytes): freshly zeroed, then with the interface brought up. *)
Definition world_down : world := mk_world (slip_zero 298) [] [].

Definition world_up : world := on_priv (set_bifup true) world_down.

(** ... with [packet] in the transmit buffer, ready to be sent. *)
Definition world_sending (packet : list Z) : world :=
  on_dev (fun d => set_d_len (Z.of_nat (length packet)) (set_d_buf TXBUF d))
    (on_priv (fun p => set_txbuf (buf_fill packet (txbuf p)) p) world_up).

(** ... with the receive buffer filled to capacity with the byte 0x41. *)
Definition world_full : world :=
  on_priv (fun p => set_rxlen 298 (set_rxbuf (replicate 298 65) p)) world_up.

(** ... with a one-byte packet [b] received. *)
Definition world_received (b : Z) : world :=
  on_priv (fun p => set_rxlen 1 (set_rxbuf (<[0%nat := b]> (rxbuf p)) p))
    world_up.

(** A stack that never has a reply, and a device that is never looped
    back. *)
Definition no_reply (buf : list Z) (len : Z) : list Z * Z := ([], 0).

Definition no_loopback (buf : list Z) (len : Z) : bool := false.

(** Splits the conjunctions that are written out, leaving the named
    predicates folded. *)
Ltac split_conj := repeat match goal with |- _ /\ _ => split end.

(** ** Configuration and collaborators

    What the driver takes from the rest of the system: the configured
    packet size, which IP versions are compiled in, the version constants
    of nuttx/net/ip.h, the tick constant of nuttx/clock.h, and the IP stack
    entry points. An input function of the stack receives the buffer and
    [d_len]; it answers with the bytes it leaves at the start of the buffer
    and the new [d_len] (a positive [d_len] means there is a reply to
    send). *)

Section Driver.

Set Default Proof Using "Type".

Variable CONFIG_NET_SLIP_PKTSIZE : Z.
Variables CONFIG_NET_IPv4 CONFIG_NET_IPv6 : bool.
Variables IP_VERSION_MASK IPv4_VERSION IPv6_VERSION : Z.
Variable TICK_PER_HSEC : Z.
Variables ipv4_input ipv6_input : list Z -> Z -> list Z * Z.
Variable devif_loopback : list Z -> Z -> bool.

(** The number of bytes in [rxbuf] and in [txbuf]. *)
Definition SLIP_BUFSIZE : Z := CONFIG_NET_SLIP_PKTSIZE + 2.

(** ** Receive path *)

(** Where the receiver task is blocked in [slip_getc] when the serial
    input runs dry: at the top of the loop of [slip_rxtask] (no packet is
    being assembled), at the first read of the loop of [slip_receive], or
    at its second read, after an ESC. *)
Inductive rx_point := Waiting | Normal | Escaped.

(** [slip_receive] either blocks, or returns with a packet, or has stored
    through an index outside [rxbuf]. *)
Inductive rx_outcome :=
| Rx_blocked (pt : rx_point) (w : world)
| Rx_returned (w : world) (input : list Z)
| Rx_fault.

(** [buf[i] = v]; an index outside the array is a fault. *)
Definition buf_write (buf : list Z) (i : nat) (v : Z) : option (list Z) :=
  if (i <? length buf)%nat then Some (<[i := v]> buf) else None.

(** The default handler of [slip_receive]:
    [if (rxlen < PKTSIZE + 2) rxbuf[rxlen++] = ch;] *)
Definition rx_store (ch : Z) (w : world) : option world :=
  let p := priv w in
  if rxlen p <? SLIP_BUFSIZE then
    match buf_write (rxbuf p) (Z.to_nat (rxlen p)) ch with
    | Some buf' =>
        Some (on_priv (fun p => set_rxlen (uint16 (rxlen p + 1))
                                  (set_rxbuf buf' p)) w)
    | None => None
    end
  else Some w.

(** The inner switch after an ESC has been read. *)
Definition rx_unescape (ch : Z) (w : world) : Z * world :=
  if ch =? SLIP_ESC_END then (SLIP_END, w)
  else if ch =? SLIP_ESC_ESC then (SLIP_ESC, w)
  else (ch, log_call (Nerr_protocol_violation ch) w).

(** What the byte read after an ESC does to the packet: the inner switch,
    then the default handler it falls into. *)
Definition rx_escaped (ch : Z) (w : world) : option world :=
  let (ch', w') := rx_unescape ch w in rx_store ch' w'.

(** [slip_receive] returns when a packet is complete; [input] is what the
    serial line still holds. Each byte goes through the [uint8_t] that
    [slip_getc] reads it into. *)
Fixpoint slip_receive (w : world) (input : list Z) : rx_outcome :=
  match input with
  | [] => Rx_blocked Normal w
  | c :: input' =>
      let ch := uint8 c in
      if ch =? SLIP_END then
        if 0 <? rxlen (priv w) then Rx_returned w input'
        else slip_receive w input'
      else if ch =? SLIP_ESC then
        match input' with
        | [] => Rx_blocked Escaped w
        | c2 :: input'' =>
            match rx_escaped (uint8 c2) w with
            | Some w' => slip_receive w' input''
            | None => Rx_fault
            end
        end
      else
        match rx_store ch w with
        | Some w' => slip_receive w' input'
        | None => Rx_fault
        end
  end.

(** The handling of the first byte of a packet in [slip_rxtask]. *)
Definition slip_rxtask_begin (ch : Z) (w : world) : option world :=
  if ch =? SLIP_END
  then Some (on_priv (set_rxlen 0) w)
  else
    match buf_write (rxbuf (priv w)) 0 (uint8 ch) with
    | Some buf' => Some (on_priv (fun p => set_rxlen 1 (set_rxbuf buf' p)) w)
    | None => None
    end.

(** A call of an input function of the stack on [dev]. *)
Definition net_input (f : list Z -> Z -> list Z * Z) (c : list Z -> call)
    (w : world) : world :=
  let buf := dev_buffer (priv w) in
  let len := d_len (dev (priv w)) in
  let w := log_call (c (slice buf 0 (Z.to_nat len))) w in
  let (data, len') := f buf len in
  let w := match d_buf (dev (priv w)) with
           | NULLBUF => w
           | RXBUF => on_priv (set_rxbuf (buf_fill data buf)) w
           | TXBUF => on_priv (set_txbuf (buf_fill data buf)) w
           end in
  on_dev (set_d_len len') w.

(** What [slip_rxtask] does with a packet once [slip_receive] has
    returned. The network lock taken around it is not modelled. *)
Definition slip_rxtask_dispatch (w : world) : world :=
  let w := slip_semtake w in
  let w := on_dev (set_d_buf RXBUF) w in
  let w := on_dev (set_d_len (rxlen (priv w))) w in
  let w := NETDEV_RXPACKETS w in
  let vhl := peek (dev_buffer (priv w)) 0 in
  let w :=
    if CONFIG_NET_IPv4 && (Z.land vhl IP_VERSION_MASK =? IPv4_VERSION) then
      let w := NETDEV_RXIPV4 w in
      let w := net_input ipv4_input Net_ipv4_input w in
      if 0 <? d_len (dev (priv w)) then fst (slip_transmit w) else w
    else if CONFIG_NET_IPv6 && (Z.land vhl IP_VERSION_MASK =? IPv6_VERSION) then
      let w := NETDEV_RXIPV6 w in
      let w := net_input ipv6_input Net_ipv6_input w in
      if 0 <? d_len (dev (priv w)) then fst (slip_transmit w) else w
    else NETDEV_RXERRORS w in
  slip_semgive w.

Inductive rxtask_outcome :=
| Rxtask_blocked (pt : rx_point) (w : world)
| Rxtask_more (w : world) (input : list Z)
| Rxtask_fault.

(** The receive half of one iteration with the interface up: the first
    byte, then [slip_receive]. *)
Definition slip_rxtask_frame (w : world) (input : list Z) : rx_outcome :=
  match input with
  | [] => Rx_blocked Waiting w
  | c :: input' =>
      match slip_rxtask_begin (uint8 c) w with
      | Some w' => slip_receive w' input'
      | None => Rx_fault
      end
  end.

(** The loop of [slip_rxtask], run for at most [n] iterations. *)
Fixpoint slip_rxtask_loop (n : nat) (w : world) (input : list Z)
    : rxtask_outcome :=
  match n with
  | O => Rxtask_more w input
  | S n' =>
      match input with
      | [] => Rxtask_blocked Waiting w
      | c :: input' =>
          (* Ignore any input that we receive before the interface is up. *)
          if negb (bifup (priv w)) then slip_rxtask_loop n' w input'
          else
            match slip_rxtask_begin (uint8 c) w with
            | None => Rxtask_fault
            | Some w0 =>
                match slip_receive w0 input' with
                | Rx_blocked pt w' => Rxtask_blocked pt w'
                | Rx_returned w' rest =>
                    slip_rxtask_loop n' (slip_rxtask_dispatch w') rest
                | Rx_fault => Rxtask_fault
                end
            end
      end
  end.

(** Every iteration reads at least one byte, so as many iterations as
    there are bytes, and one more, exhaust the input. *)
Definition slip_rxtask (w : world) (input : list Z) : rxtask_outcome :=
  slip_rxtask_loop (S (length input)) w input.

(** The packet the receiver hands to the stack: [rxlen] bytes of [rxbuf]. *)
Definition rx_packet (w : world) : list Z :=
  slice (rxbuf (priv w)) 0 (Z.to_nat (rxlen (priv w))).

(** ** Network callbacks *)

Definition slip_ifup (w : world) : world * Z :=
  (on_priv (set_bifup true) w, OK).

Definition slip_ifdown (w : world) : world * Z :=
  (on_priv (set_bifup false) w, OK).

Definition slip_txavail (w : world) : world * Z :=
  (* Ignore the notification if the interface is not yet up *)
  if bifup (priv w)
  then (log_call (Sys_kill (txpid (priv w)) SIGALRM)
          (on_priv (set_txnodelay true) w), OK)
  else (w, OK).

(** ** Transmit task *)

Definition slip_txpoll (w : world) : world * Z :=
  let w :=
    if 0 <? d_len (dev (priv w)) then
      if negb (devif_loopback (dev_buffer (priv w)) (d_len (dev (priv w))))
      then fst (slip_transmit w)
      else w
    else w in
  (w, 0).

(** Modelled from the spec: the generic poll driver of the stack
    ([devif_poll], [devif_timer]) is not part of this driver. It goes
    through what the stack has to send and, for each item, leaves the
    data in the buffer [d_buf] points at, sets [d_len] and invokes the
    callback; it stops early when the callback returns non-zero. An item
    is a pair of bytes and a length; length 0 is an item with nothing to
    send. *)
Definition stack_fill (item : list Z * Z) (w : world) : world :=
  let data := fst item in
  let w := match d_buf (dev (priv w)) with
           | NULLBUF => w
           | RXBUF => on_priv (fun p => set_rxbuf (buf_fill data (rxbuf p)) p) w
           | TXBUF => on_priv (fun p => set_txbuf (buf_fill data (txbuf p)) p) w
           end in
  on_dev (set_d_len (snd item)) w.

Fixpoint devif_walk (items : list (list Z * Z)) (callback : world -> world * Z)
    (w : world) : world :=
  match items with
  | [] => w
  | item :: items' =>
      let (w', bstop) := callback (stack_fill item w) in
      if bstop =? 0 then devif_walk items' callback w' else w'
  end.

Definition devif_poll (items : list (list Z * Z))
    (callback : world -> world * Z) (w : world) : world :=
  devif_walk items callback (log_call Net_devif_poll w).

Definition devif_timer (items : list (list Z * Z))
    (callback : world -> world * Z) (w : world) : world :=
  devif_walk items callback (log_call Net_devif_timer w).

(** The local state of [slip_txtask] next to the shared one. *)
Record txtask_state := mk_txtask {
  tx_world : world;
  start_ticks : Z
}.

(** One iteration of the loop of [slip_txtask]. [now_ticks] is what
    [clock_systimer] returns in it and [items] what the stack has to send;
    [clock_t] is taken as a 32-bit unsigned counter. *)
Definition slip_txtask_iteration (now_ticks : Z) (items : list (list Z * Z))
    (t : txtask_state) : txtask_state :=
  let w := slip_semtake (tx_world t) in
  let w :=
    if negb (txnodelay (priv w))
    then log_call (Sys_usleep SLIP_WDDELAY) (slip_semgive w)
    else slip_semgive (on_priv (set_txnodelay false) w) in
  if bifup (priv w) then
    let w := slip_semtake w in
    let w := on_dev (set_d_buf TXBUF) w in
    let hsec := (((now_ticks - start_ticks t) mod 2 ^ 32) / TICK_PER_HSEC)
                  mod 2 ^ 32 in
    let (w, start) :=
      if 0 <? hsec
      then (devif_timer items slip_txpoll w,
            (start_ticks t + hsec * TICK_PER_HSEC) mod 2 ^ 32)
      else (devif_poll items slip_txpoll w, start_ticks t) in
    mk_txtask (slip_semgive w) start
  else mk_txtask w (start_ticks t).

(** ** Initialization *)

(** [slip_initialize] for the single interface of the model. The three
    arguments are what [nx_open] and the two [kthread_create] return. A
    task that has been started posts the semaphore first thing
    ([slip_semgive] at the head of [slip_rxtask] and [slip_txtask]), which
    is what the [slip_semtake] that follows its creation waits for. *)
Definition slip_initialize (open_status rx_status tx_status : Z) (w : world)
    : world * Z :=
  let w := on_priv (fun _ => slip_zero SLIP_BUFSIZE) w in
  (* Open the device *)
  let w := log_call (Sys_open open_status) w in
  let w := on_priv (set_fd (int16 open_status)) w in
  if fd (priv w) <? 0 then
    (log_call (Nerr_open_failed (fd (priv w))) w, fd (priv w))
  else
    (* Initialize the wait semaphore *)
    let w := on_priv (set_waitsem 0) w in
    (* Start the SLIP receiver kernel thread *)
    let w := log_call (Sys_kthread_create true rx_status) w in
    let w := on_priv (set_rxpid rx_status) w in
    if rxpid (priv w) <? 0 then
      (log_call Nerr_start_failed w, rxpid (priv w))
    else
      (* Wait and make sure that the receive task is started. *)
      let w := slip_semtake (slip_semgive w) in
      (* Start the SLIP transmitter kernel thread *)
      let w := log_call (Sys_kthread_create false tx_status) w in
      let w := on_priv (set_txpid tx_status) w in
      if txpid (priv w) <? 0 then
        (log_call Nerr_start_failed w, txpid (priv w))
      else
        (* Wait and make sure that the transmit task is started. *)
        let w := slip_semtake (slip_semgive w) in
        (* Bump the semaphore count so that it can now be used as a mutex *)
        let w := slip_semgive w in
        let w := log_call Net_register w in
        let w := log_call (Sys_close (fd (priv w))) w in
        (w, OK).

(** The descriptors a sequence of calls leaves open: those a successful
    open returned and no later close released. *)
Fixpoint open_fds (cs : list call) (acc : list Z) : list Z :=
  match cs with
  | [] => acc
  | Sys_open r :: cs' =>
      open_fds cs' (if 0 <=? r then r :: acc else acc)
  | Sys_close f :: cs' =>
      open_fds cs' (filter (fun x => negb (x =? f)) acc)
  | _ :: cs' => open_fds cs' acc
  end.

(** The tasks a sequence of calls has started. *)
Definition started_tasks (cs : list call) : list Z :=
  flat_map (fun c => match c with
                     | Sys_kthread_create _ r => if 0 <=? r then [r] else []
                     | _ => []
                     end) cs.


(** ** The wire format as specified *)

(** What one byte of a packet becomes on the wire: END and ESC are sent as
    two-byte escape sequences, any other byte is sent as it is. *)
Definition slip_escape (b : Z) : list Z :=
  if b =? SLIP_END then [SLIP_ESC; SLIP_ESC_END]
  else if b =? SLIP_ESC then [SLIP_ESC; SLIP_ESC_ESC]
  else [b].

(** The packet [slip_transmit] is asked to send: [d_len] bytes at [d_buf]. *)
Definition dev_packet (w : world) : list Z :=
  slice (dev_buffer (priv w)) 0 (Z.to_nat (d_len (dev (priv w)))).

(** The bytes one call of [slip_transmit] puts on the serial line. *)
Definition slip_transmit_bytes (w : world) : list Z :=
  drop (length (tty_out w)) (tty_out (fst (slip_transmit w))).

(** The receiver, not assembling anything, is fed [stream], and
    [slip_receive] returns at its end with [packet] in the buffer. *)
Definition decodes_to (w : world) (stream packet : list Z) : Prop :=
  exists w', slip_rxtask_frame w stream = Rx_returned w' []
             /\ rx_packet w' = packet.

(** The receive buffer in order: the array has its declared size and the
    count of bytes in it does not exceed that size. *)
Definition rxbuf_ok (w : world) : Prop :=
  length (rxbuf (priv w)) = Z.to_nat SLIP_BUFSIZE
  /\ 0 <= rxlen (priv w) <= SLIP_BUFSIZE.

(** [w'] differs from [w] at most in the receive buffer, its count and
    the calls made. *)
Definition rx_only (w w' : world) : Prop :=
  bifup (priv w') = bifup (priv w)
  /\ txnodelay (priv w') = txnodelay (priv w)
  /\ fd (priv w') = fd (priv w)
  /\ rxpid (priv w') = rxpid (priv w)
  /\ txpid (priv w') = txpid (priv w)
  /\ waitsem (priv w') = waitsem (priv w)
  /\ dev (priv w') = dev (priv w)
  /\ txbuf (priv w') = txbuf (priv w)
  /\ tty_out w' = tty_out w.

(** [w'] has the fields of the driver structure of [w], [dev] apart. *)
Definition link_unchanged (w w' : world) : Prop :=
  bifup (priv w') = bifup (priv w)
  /\ txnodelay (priv w') = txnodelay (priv w)
  /\ fd (priv w') = fd (priv w)
  /\ rxlen (priv w') = rxlen (priv w)
  /\ rxpid (priv w') = rxpid (priv w)
  /\ txpid (priv w') = txpid (priv w)
  /\ waitsem (priv w') = waitsem (priv w)
  /\ rxbuf (priv w') = rxbuf (priv w)
  /\ txbuf (priv w') = txbuf (priv w).

(** An outcome of [slip_receive] that is not a fault and whose world
    satisfies [Q]. *)
Definition rx_outcome_sat (Q : world -> Prop) (o : rx_outcome) : Prop :=
  match o with
  | Rx_blocked _ w' | Rx_returned w' _ => Q w'
  | Rx_fault => False
  end.

Definition rxtask_outcome_sat (Q : world -> Prop) (o : rxtask_outcome) : Prop :=
  match o with
  | Rxtask_blocked _ w' | Rxtask_more w' _ => Q w'
  | Rxtask_fault => False
  end.

(** A byte that is sent and received as it is. *)
Definition plain_byte (b : Z) : Prop :=
  is_uint8 b /\ b <> SLIP_END /\ b <> SLIP_ESC.

(** The packet sizes the driver is built for: the preprocessor check
    rejects anything below 296, and the packet lengths are kept in 16-bit
    unsigned fields. *)
Definition pktsize_ok : Prop :=
  296 <= CONFIG_NET_SLIP_PKTSIZE /\ CONFIG_NET_SLIP_PKTSIZE + 2 <= 65535.

(** The calls that poll the stack, and the calls that sleep. *)
Definition is_poll (c : call) : bool :=
  match c with
  | Net_devif_poll | Net_devif_timer => true
  | _ => false
  end.

Definition is_sleep (c : call) : bool :=
  match c with
  | Sys_usleep _ => true
  | _ => false
  end.

(** ** Further notions used in the statements *)

(** A byte that the encoder has to escape. *)
Definition slip_special (b : Z) : bool := (b =? SLIP_END) || (b =? SLIP_ESC).

(** A packet framed for the wire: END, the escaped bytes, END. *)
Definition slip_frame (P : list Z) : list Z :=
  SLIP_END :: flat_map slip_escape P ++ [SLIP_END].

(** A packet the receiver can hold, made of bytes. *)
Definition rx_sized (P : list Z) : Prop :=
  P <> [] /\ Z.of_nat (length P) <= SLIP_BUFSIZE /\ Forall is_uint8 P.

(** The invariant of the receive statistics: every packet counted as
    received is counted as IPv4, as IPv6 or as an error. *)
Definition rx_counted (w : world) : Prop :=
  let s := d_statistics (dev (priv w)) in
  rx_packets s = rx_ipv4 s + rx_ipv6 s + rx_errors s.

(** What the stack offers to a poll, when it is sound: the length given is
    that of the data, and the data fits into a buffer of [size] bytes. *)
Definition tx_item_ok (size : nat) (item : list Z * Z) : Prop :=
  snd item = Z.of_nat (length (fst item)) /\ (length (fst item) <= size)%nat.

(** The frame [slip_txpoll] sends for an item of a poll: none when the
    item has nothing to send. *)
Definition tx_item_frame (item : list Z * Z) : list Z :=
  if 0 <? snd item then slip_frame (fst item) else [].

(** * Properties *)

(** ** Buffers and slices *)

Lemma slice_nil buf start : slice buf start 0 = [].
Proof. reflexivity. Qed.

Lemma slice_cons buf start len :
  slice buf start (S len) = peek buf start :: slice buf (S start) len.
Proof. reflexivity. Qed.

Lemma slice_snoc buf start len :
  slice buf start (S len) = slice buf start len ++ [peek buf (start + len)%nat].
Proof.
  unfold slice. rewrite seq_S, map_app. reflexivity.
Qed.

Lemma slice_length buf start len : length (slice buf start len) = len.
Proof. unfold slice. rewrite length_map. apply length_seq. Qed.

Lemma slice_app_l (l1 l2 : list Z) : slice (l1 ++ l2) 0 (length l1) = l1.
Proof.
  unfold slice, peek.
  apply list_eq. intros i.
  rewrite list_lookup_fmap.
  destruct (decide (i < length l1)%nat) as [Hi|Hi].
  - rewrite lookup_seq_lt by assumption. simpl.
    rewrite app_nth1 by assumption.
    destruct (lookup_lt_is_Some_2 l1 i Hi) as [x Hx].
    rewrite Hx. f_equal. apply nth_lookup_Some with (d := 0) in Hx. exact Hx.
  - rewrite lookup_seq_ge by lia. simpl.
    symmetry. apply lookup_ge_None. lia.
Qed.

Lemma slice_take (buf : list Z) (n : nat) :
  (n <= length buf)%nat -> slice buf 0 n = take n buf.
Proof.
  intros Hn.
  pose proof (slice_app_l (take n buf) (drop n buf)) as H.
  rewrite take_drop, length_take, Nat.min_l in H by assumption.
  exact H.
Qed.

(** ** The encoder *)

Lemma uint8_id b : is_uint8 b -> uint8 b = b.
Proof. unfold is_uint8, uint8. intros H. apply Z.mod_small. lia. Qed.

Lemma uint8_is_uint8 b : is_uint8 (uint8 b).
Proof. unfold is_uint8, uint8. apply Z.mod_pos_bound. lia. Qed.

Lemma scan_flush_out buf s :
  tty_out (scan_flush buf s)
  = tty_out (scan_world s) ++ slice buf (scan_start s) (scan_len s).
Proof.
  unfold scan_flush. destruct (scan_len s); simpl.
  - rewrite app_nil_r. reflexivity.
  - reflexivity.
Qed.

Lemma scan_flush_priv buf s : priv (scan_flush buf s) = priv (scan_world s).
Proof. unfold scan_flush. destruct (0 <? scan_len s)%nat; reflexivity. Qed.

Lemma scan_flush_calls buf s : calls (scan_flush buf s) = calls (scan_world s).
Proof. unfold scan_flush. destruct (0 <? scan_len s)%nat; reflexivity. Qed.

(** The scan writes, run by run, the escaped form of the bytes it has
    examined, and touches nothing but the serial line. *)
Lemma slip_transmit_loop_spec buf remaining : forall src s,
  src = (scan_start s + scan_len s)%nat ->
  let s' := slip_transmit_loop buf remaining src s in
  tty_out (scan_flush buf s')
  = tty_out (scan_flush buf s) ++ flat_map slip_escape (slice buf src remaining)
  /\ priv (scan_world s') = priv (scan_world s)
  /\ calls (scan_world s') = calls (scan_world s).
Proof.
  induction remaining as [|r IH]; intros src s Hsrc; cbn zeta.
  - simpl. rewrite app_nil_r. auto.
  - rewrite slice_cons. cbn [slip_transmit_loop flat_map].
    unfold slip_escape at 1.
    destruct (peek buf src =? SLIP_END) eqn:Hend;
      [|destruct (peek buf src =? SLIP_ESC) eqn:Hesc].
    + edestruct IH as (Hout & Hpriv & Hcalls);
        [|rewrite Hout, Hpriv, Hcalls; clear Hout Hpriv Hcalls].
      { simpl. lia. }
      rewrite (scan_flush_out buf (mk_txscan _ _ _)). simpl.
      rewrite scan_flush_priv, scan_flush_calls, scan_flush_out.
      rewrite app_nil_r, <- !app_assoc. auto.
    + edestruct IH as (Hout & Hpriv & Hcalls);
        [|rewrite Hout, Hpriv, Hcalls; clear Hout Hpriv Hcalls].
      { simpl. lia. }
      rewrite (scan_flush_out buf (mk_txscan _ _ _)). simpl.
      rewrite scan_flush_priv, scan_flush_calls, scan_flush_out.
      rewrite app_nil_r, <- !app_assoc. auto.
    + edestruct IH as (Hout & Hpriv & Hcalls);
        [|rewrite Hout, Hpriv, Hcalls; clear Hout Hpriv Hcalls].
      { simpl. lia. }
      rewrite !scan_flush_out. simpl scan_world. simpl scan_start.
      simpl scan_len. rewrite slice_snoc, <- Hsrc, <- !app_assoc. auto.
Qed.

(** [slip_transmit] with its scan named. *)
Lemma slip_transmit_unfold (w : world) :
  let w1 := slip_putc SLIP_END (NETDEV_TXPACKETS w) in
  let buf := dev_buffer (priv w) in
  let s := slip_transmit_loop buf (Z.to_nat (d_len (dev (priv w)))) 0
             (mk_txscan 0 0 w1) in
  fst (slip_transmit w)
  = on_priv (set_txnodelay true)
      (NETDEV_TXDONE (slip_putc SLIP_END (scan_flush buf s))).
Proof. reflexivity. Qed.

(** The bytes [slip_transmit] writes: END, the escaped packet, END. *)
Lemma slip_transmit_out (w : world) :
  tty_out (fst (slip_transmit w))
  = tty_out w ++ SLIP_END :: flat_map slip_escape (dev_packet w) ++ [SLIP_END].
Proof.
  rewrite slip_transmit_unfold. cbv zeta.
  destruct (slip_transmit_loop_spec (dev_buffer (priv w))
              (Z.to_nat (d_len (dev (priv w)))) 0%nat
              (mk_txscan 0 0 (slip_putc SLIP_END (NETDEV_TXPACKETS w))) eq_refl)
    as (Hout & _ & _).
  cbn [tty_out on_priv NETDEV_TXDONE on_dev slip_putc slip_write].
  cbn [tty_out on_priv NETDEV_TXDONE on_dev slip_putc slip_write] in Hout.
  rewrite Hout, scan_flush_out. unfold dev_packet. simpl.
  rewrite app_nil_r, <- !app_assoc. reflexivity.
Qed.

Lemma slip_transmit_bytes_eq (w : world) :
  slip_transmit_bytes w
  = SLIP_END :: flat_map slip_escape (dev_packet w) ++ [SLIP_END].
Proof.
  unfold slip_transmit_bytes. rewrite slip_transmit_out.
  rewrite drop_app_length. reflexivity.
Qed.

(** What [slip_transmit] leaves in the driver structure: two statistics
    are bumped and [txnodelay] is set. *)
Lemma slip_transmit_priv (w : world) :
  priv (fst (slip_transmit w))
  = set_txnodelay true (priv (NETDEV_TXDONE (NETDEV_TXPACKETS w))).
Proof.
  rewrite slip_transmit_unfold. cbv zeta.
  destruct (slip_transmit_loop_spec (dev_buffer (priv w))
              (Z.to_nat (d_len (dev (priv w)))) 0%nat
              (mk_txscan 0 0 (slip_putc SLIP_END (NETDEV_TXPACKETS w))) eq_refl)
    as (_ & Hpriv & _).
  cbn [priv on_priv NETDEV_TXDONE on_dev slip_putc slip_write].
  rewrite scan_flush_priv, Hpriv. reflexivity.
Qed.

Lemma slip_transmit_calls (w : world) :
  calls (fst (slip_transmit w)) = calls w.
Proof.
  rewrite slip_transmit_unfold. cbv zeta.
  destruct (slip_transmit_loop_spec (dev_buffer (priv w))
              (Z.to_nat (d_len (dev (priv w)))) 0%nat
              (mk_txscan 0 0 (slip_putc SLIP_END (NETDEV_TXPACKETS w))) eq_refl)
    as (_ & _ & Hcalls).
  cbn [calls on_priv NETDEV_TXDONE on_dev slip_putc slip_write].
  rewrite scan_flush_calls, Hcalls. reflexivity.
Qed.


(** *** Escaping *)

Lemma slip_escape_no_end (P : list Z) : forall i,
  flat_map slip_escape P !! i <> Some SLIP_END.
Proof.
  induction P as [|b P IH]; intros i; simpl.
  - rewrite lookup_nil. discriminate.
  - revert IH. generalize (flat_map slip_escape P). intros body IH.
    unfold slip_escape.
    destruct (b =? SLIP_END) eqn:Hend; [|destruct (b =? SLIP_ESC) eqn:Hesc].
    + destruct i as [|[|i]]; simpl; try discriminate. apply IH.
    + destruct i as [|[|i]]; simpl; try discriminate. apply IH.
    + destruct i as [|i]; simpl; [|apply IH].
      intros [= ->]. discriminate.
Qed.

Lemma slip_escape_esc_paired (P : list Z) : forall i,
  flat_map slip_escape P !! i = Some SLIP_ESC ->
  flat_map slip_escape P !! S i = Some SLIP_ESC_END
  \/ flat_map slip_escape P !! S i = Some SLIP_ESC_ESC.
Proof.
  induction P as [|b P IH]; intros i; simpl.
  - rewrite lookup_nil. discriminate.
  - revert IH. generalize (flat_map slip_escape P). intros body IH.
    unfold slip_escape.
    destruct (b =? SLIP_END) eqn:Hend; [|destruct (b =? SLIP_ESC) eqn:Hesc].
    + destruct i as [|[|i]]; simpl; auto; discriminate.
    + destruct i as [|[|i]]; simpl; auto; discriminate.
    + destruct i as [|i]; simpl; [|apply IH].
      intros [= ->]. discriminate.
Qed.

(** C2. The byte stream [slip_transmit] emits is an END, the body, and an
    END. The body is the packet with every END byte replaced by the pair
    ESC, ESC_END and every ESC byte by the pair ESC, ESC_ESC; so no byte of
    the body is END, and an ESC in the body is always the first byte of
    one of the two pairs. A payload END or ESC thus reaches the wire only
    as the second byte of such a pair. *)
Theorem slip_transmit_escaping (w : world) :
  let body := flat_map slip_escape (dev_packet w) in
  slip_transmit_bytes w = SLIP_END :: body ++ [SLIP_END]
  /\ (forall i, body !! i <> Some SLIP_END)
  /\ (forall i, body !! i = Some SLIP_ESC ->
        body !! S i = Some SLIP_ESC_END \/ body !! S i = Some SLIP_ESC_ESC).
Proof.
  cbv zeta. split; [apply slip_transmit_bytes_eq|]. split.
  - apply slip_escape_no_end.
  - apply slip_escape_esc_paired.
Qed.

(** ** The decoder *)

Lemma slip_receive_end (w : world) (rest : list Z) :
  slip_receive w (SLIP_END :: rest)
  = if 0 <? rxlen (priv w) then Rx_returned w rest else slip_receive w rest.
Proof. reflexivity. Qed.

Lemma slip_receive_esc (w : world) (c2 : Z) (rest : list Z) :
  slip_receive w (SLIP_ESC :: c2 :: rest)
  = match rx_escaped (uint8 c2) w with
    | Some w' => slip_receive w' rest
    | None => Rx_fault
    end.
Proof. reflexivity. Qed.

Lemma slip_receive_esc_last (w : world) :
  slip_receive w [SLIP_ESC] = Rx_blocked Escaped w.
Proof. reflexivity. Qed.

Lemma slip_receive_data (w : world) (c : Z) (rest : list Z) :
  uint8 c <> SLIP_END -> uint8 c <> SLIP_ESC ->
  slip_receive w (c :: rest)
  = match rx_store (uint8 c) w with
    | Some w' => slip_receive w' rest
    | None => Rx_fault
    end.
Proof.
  intros Hend Hesc. cbn [slip_receive].
  apply Z.eqb_neq in Hend, Hesc. rewrite Hend, Hesc. reflexivity.
Qed.

Lemma peek_insert (buf : list Z) (i : nat) (v : Z) :
  (i < length buf)%nat -> peek (<[i := v]> buf) i = v.
Proof.
  intros Hi. unfold peek.
  apply nth_lookup_Some with (d := 0) (x := v).
  apply list_lookup_insert_eq. exact Hi.
Qed.

Lemma slice_insert (buf : list Z) (i : nat) (v : Z) :
  (i < length buf)%nat ->
  slice (<[i := v]> buf) 0 (S i) = slice buf 0 i ++ [v].
Proof.
  intros Hi. rewrite slice_snoc. simpl. rewrite peek_insert by exact Hi.
  f_equal. rewrite !slice_take by (rewrite ?length_insert; lia).
  apply take_insert_ge. lia.
Qed.

(** With room left, the default handler appends the byte. *)
Lemma rx_store_room (ch : Z) (w : world) :
  CONFIG_NET_SLIP_PKTSIZE + 2 <= 65535 ->
  rxbuf_ok w ->
  rxlen (priv w) < SLIP_BUFSIZE ->
  exists w', rx_store ch w = Some w'
    /\ rxbuf_ok w'
    /\ rxlen (priv w') = rxlen (priv w) + 1
    /\ rx_packet w' = rx_packet w ++ [ch]
    /\ calls w' = calls w
    /\ rx_only w w'.
Proof.
  intros Hmax [Hlen Hrx] Hroom. unfold rx_store, buf_write.
  apply Z.ltb_lt in Hroom as Hroomb. rewrite Hroomb.
  assert (Hi : (Z.to_nat (rxlen (priv w)) < length (rxbuf (priv w)))%nat)
    by (rewrite Hlen; lia).
  apply Nat.ltb_lt in Hi as Hib. rewrite Hib.
  eexists. split; [reflexivity|].
  assert (Hu : uint16 (rxlen (priv w) + 1) = rxlen (priv w) + 1).
  { unfold uint16. apply Z.mod_small. unfold SLIP_BUFSIZE in Hroom. lia. }
  unfold rxbuf_ok, rx_packet, rx_only.
  cbn [priv on_priv rxlen rxbuf set_rxlen set_rxbuf calls tty_out bifup
       txnodelay fd rxpid txpid waitsem dev txbuf].
  rewrite Hu, length_insert. repeat split; try lia.
  replace (Z.to_nat (rxlen (priv w) + 1)) with (S (Z.to_nat (rxlen (priv w))))
    by lia.
  apply slice_insert. exact Hi.
Qed.

(** At capacity, the default handler drops the byte. *)
Lemma rx_store_full (ch : Z) (w : world) :
  SLIP_BUFSIZE <= rxlen (priv w) -> rx_store ch w = Some w.
Proof.
  intros Hfull. unfold rx_store.
  apply Z.ltb_ge in Hfull. rewrite Hfull. reflexivity.
Qed.

(** The decoder undoes the escaping, byte by byte. *)
Lemma slip_receive_escaped (P : list Z) : forall (w : world) (rest : list Z),
  CONFIG_NET_SLIP_PKTSIZE + 2 <= 65535 ->
  rxbuf_ok w ->
  rxlen (priv w) + Z.of_nat (length P) <= SLIP_BUFSIZE ->
  Forall is_uint8 P ->
  exists w', slip_receive w (flat_map slip_escape P ++ rest) = slip_receive w' rest
    /\ rxbuf_ok w'
    /\ rxlen (priv w') = rxlen (priv w) + Z.of_nat (length P)
    /\ rx_packet w' = rx_packet w ++ P
    /\ calls w' = calls w.
Proof.
  induction P as [|b P IH]; intros w rest Hmax Hok Hroom Hbytes.
  - exists w. simpl. rewrite app_nil_r. repeat split; try apply Hok; lia.
  - apply Forall_cons in Hbytes as [Hb Hbytes].
    cbn [length] in Hroom.
    assert (Hstep : forall ch,
      exists w', rx_store ch w = Some w'
        /\ forall rest, exists w'',
             slip_receive w' (flat_map slip_escape P ++ rest)
             = slip_receive w'' rest
             /\ rxbuf_ok w''
             /\ rxlen (priv w'') = rxlen (priv w) + Z.of_nat (S (length P))
             /\ rx_packet w'' = rx_packet w ++ ch :: P
             /\ calls w'' = calls w).
    { intros ch.
      destruct (rx_store_room ch w Hmax Hok ltac:(lia))
        as (w1 & Hstore & Hok1 & Hlen1 & Hpkt1 & Hcalls1 & _).
      exists w1. split; [exact Hstore|]. intros rest'.
      destruct (IH w1 rest' Hmax Hok1 ltac:(lia) Hbytes)
        as (w' & Hrecv & Hok' & Hlen' & Hpkt' & Hcalls').
      exists w'. rewrite Hpkt', Hpkt1, <- app_assoc.
      repeat split; try apply Hok'; auto; try congruence; lia. }
    cbn [flat_map length]. rewrite <- app_assoc.
    unfold slip_escape at 1.
    destruct (b =? SLIP_END) eqn:Hend; [|destruct (b =? SLIP_ESC) eqn:Hesc].
    + apply Z.eqb_eq in Hend. subst b.
      destruct (Hstep SLIP_END) as (w1 & Hstore & Hrest).
      destruct (Hrest rest) as (w' & Hrecv & Hprops).
      exists w'. split; [|exact Hprops].
      cbn [app]. rewrite slip_receive_esc.
      change (rx_escaped (uint8 SLIP_ESC_END) w) with (rx_store SLIP_END w).
      rewrite Hstore. exact Hrecv.
    + apply Z.eqb_eq in Hesc. subst b.
      destruct (Hstep SLIP_ESC) as (w1 & Hstore & Hrest).
      destruct (Hrest rest) as (w' & Hrecv & Hprops).
      exists w'. split; [|exact Hprops].
      cbn [app]. rewrite slip_receive_esc.
      change (rx_escaped (uint8 SLIP_ESC_ESC) w) with (rx_store SLIP_ESC w).
      rewrite Hstore. exact Hrecv.
    + apply Z.eqb_neq in Hend, Hesc.
      destruct (Hstep b) as (w1 & Hstore & Hrest).
      destruct (Hrest rest) as (w' & Hrecv & Hprops).
      exists w'. split; [|exact Hprops].
      cbn [app]. rewrite slip_receive_data by (rewrite uint8_id; assumption).
      rewrite uint8_id by assumption.
      rewrite Hstore. exact Hrecv.
Qed.

Lemma slip_rxtask_frame_end (w : world) (rest : list Z) :
  slip_rxtask_frame w (SLIP_END :: rest)
  = slip_receive (on_priv (set_rxlen 0) w) rest.
Proof. reflexivity. Qed.

(** ** The capacity of the receive buffer *)

Lemma rx_only_refl (w : world) : rx_only w w.
Proof. unfold rx_only. split_conj; reflexivity. Qed.

Lemma rx_only_trans (w1 w2 w3 : world) :
  rx_only w1 w2 -> rx_only w2 w3 -> rx_only w1 w3.
Proof.
  unfold rx_only. intros (?&?&?&?&?&?&?&?&?) (?&?&?&?&?&?&?&?&?).
  split_conj; congruence.
Qed.

Lemma uint16_le (x : Z) : 0 <= x -> 0 <= uint16 x <= x.
Proof.
  intros Hx. unfold uint16. split.
  - apply Z.mod_pos_bound. lia.
  - apply Z.mod_le; lia.
Qed.

(** The default handler never stores outside the array and keeps the
    count within the capacity. *)
Lemma rx_store_safe (ch : Z) (w : world) :
  rxbuf_ok w ->
  exists w', rx_store ch w = Some w' /\ rxbuf_ok w' /\ rx_only w w'
             /\ calls w' = calls w.
Proof.
  intros [Hlen Hrx]. unfold rx_store, buf_write.
  destruct (rxlen (priv w) <? SLIP_BUFSIZE) eqn:Hroom.
  - apply Z.ltb_lt in Hroom.
    assert (Hi : (Z.to_nat (rxlen (priv w)) <? length (rxbuf (priv w)))%nat = true)
      by (apply Nat.ltb_lt; rewrite Hlen; lia).
    rewrite Hi. eexists. split; [reflexivity|].
    unfold rxbuf_ok, rx_only.
    cbn [priv on_priv rxlen rxbuf set_rxlen set_rxbuf calls tty_out bifup
         txnodelay fd rxpid txpid waitsem dev txbuf].
    rewrite length_insert.
    pose proof (uint16_le (rxlen (priv w) + 1) ltac:(lia)).
    repeat split; auto; lia.
  - exists w. repeat split; auto; try apply rx_only_refl; lia.
Qed.

Lemma rx_escaped_safe (ch : Z) (w : world) :
  rxbuf_ok w ->
  exists w', rx_escaped ch w = Some w' /\ rxbuf_ok w' /\ rx_only w w'.
Proof.
  intros Hok. unfold rx_escaped, rx_unescape.
  destruct (ch =? SLIP_ESC_END); [|destruct (ch =? SLIP_ESC_ESC)].
  - destruct (rx_store_safe SLIP_END w Hok) as (w' & ? & ? & ? & _); eauto.
  - destruct (rx_store_safe SLIP_ESC w Hok) as (w' & ? & ? & ? & _); eauto.
  - destruct (rx_store_safe ch (log_call (Nerr_protocol_violation ch) w) Hok)
      as (w' & ? & ? & ? & _); eauto.
Qed.

Lemma slip_rxtask_begin_safe (ch : Z) (w : world) :
  pktsize_ok -> rxbuf_ok w ->
  exists w', slip_rxtask_begin ch w = Some w' /\ rxbuf_ok w' /\ rx_only w w'
             /\ calls w' = calls w.
Proof.
  intros [Hmin _] [Hlen Hrx]. unfold slip_rxtask_begin, buf_write.
  destruct (ch =? SLIP_END).
  - eexists. split; [reflexivity|]. unfold rxbuf_ok, rx_only. simpl.
    repeat split; auto; unfold SLIP_BUFSIZE in Hrx |- *; lia.
  - assert (Hi : (0 <? length (rxbuf (priv w)))%nat = true)
      by (apply Nat.ltb_lt; rewrite Hlen; unfold SLIP_BUFSIZE; lia).
    rewrite Hi. eexists. split; [reflexivity|].
    unfold rxbuf_ok, rx_only.
    cbn [priv on_priv rxlen rxbuf set_rxlen set_rxbuf calls tty_out bifup
         txnodelay fd rxpid txpid waitsem dev txbuf].
    rewrite length_insert.
    repeat split; auto; unfold SLIP_BUFSIZE in Hrx |- *; lia.
Qed.

(** Whatever the input, [slip_receive] never stores outside the array and
    leaves the count within the capacity. *)
Lemma slip_receive_safe (n : nat) : forall (input : list Z) (w : world),
  (length input <= n)%nat ->
  rxbuf_ok w ->
  rx_outcome_sat (fun w' => rxbuf_ok w' /\ rx_only w w') (slip_receive w input).
Proof.
  induction n as [|n IH]; intros input w Hn Hok.
  - destruct input; [|simpl in Hn; lia]. simpl. auto using rx_only_refl.
  - destruct input as [|c input]; [simpl; auto using rx_only_refl|].
    cbn [slip_receive]. cbn [length] in Hn.
    destruct (uint8 c =? SLIP_END).
    + destruct (0 <? rxlen (priv w)); [simpl; auto using rx_only_refl|].
      apply IH; [lia|exact Hok].
    + destruct (uint8 c =? SLIP_ESC).
      * destruct input as [|c2 input]; [simpl; auto using rx_only_refl|].
        cbn [length] in Hn.
        destruct (rx_escaped_safe (uint8 c2) w Hok) as (w' & -> & Hok' & Hfr).
        specialize (IH input w' ltac:(lia) Hok').
        destruct (slip_receive w' input); simpl in IH |- *; [| |exact IH];
          destruct IH; split; eauto using rx_only_trans.
      * destruct (rx_store_safe (uint8 c) w Hok) as (w' & -> & Hok' & Hfr & _).
        specialize (IH input w' ltac:(lia) Hok').
        destruct (slip_receive w' input); simpl in IH |- *; [| |exact IH];
          destruct IH; split; eauto using rx_only_trans.
Qed.


Lemma buf_fill_length (data buf : list Z) :
  length (buf_fill data buf) = length buf.
Proof.
  unfold buf_fill. rewrite length_take, length_app, length_drop. lia.
Qed.

(** A call into the stack leaves the receive count and the size of the
    receive array alone. *)
Lemma net_input_rx (f : list Z -> Z -> list Z * Z) (c : list Z -> call)
    (w : world) :
  rxlen (priv (net_input f c w)) = rxlen (priv w)
  /\ length (rxbuf (priv (net_input f c w))) = length (rxbuf (priv w))
  /\ rx_packets (d_statistics (dev (priv (net_input f c w))))
     = rx_packets (d_statistics (dev (priv w)))
  /\ bifup (priv (net_input f c w)) = bifup (priv w).
Proof.
  unfold net_input, dev_buffer.
  destruct (f _ _) as [data len'].
  destruct (d_buf (dev (priv w))) eqn:Hbuf; simpl; rewrite ?Hbuf; simpl;
    rewrite ?buf_fill_length; auto.
Qed.

Lemma slip_transmit_rx (w : world) :
  rxlen (priv (fst (slip_transmit w))) = rxlen (priv w)
  /\ rxbuf (priv (fst (slip_transmit w))) = rxbuf (priv w)
  /\ rx_packets (d_statistics (dev (priv (fst (slip_transmit w)))))
     = rx_packets (d_statistics (dev (priv w)))
  /\ bifup (priv (fst (slip_transmit w))) = bifup (priv w).
Proof. rewrite slip_transmit_priv. simpl. auto. Qed.

(** Handing a packet to the stack counts one received packet and leaves
    the receive count and the size of the receive array alone. *)
Lemma slip_rxtask_dispatch_rx (w : world) :
  let w' := slip_rxtask_dispatch w in
  rxlen (priv w') = rxlen (priv w)
  /\ length (rxbuf (priv w')) = length (rxbuf (priv w))
  /\ rx_packets (d_statistics (dev (priv w')))
     = rx_packets (d_statistics (dev (priv w))) + 1
  /\ bifup (priv w') = bifup (priv w).
Proof.
  cbv zeta. unfold slip_rxtask_dispatch.
  set (w1 := NETDEV_RXPACKETS _).
  assert (H1 : rxlen (priv w1) = rxlen (priv w)
               /\ length (rxbuf (priv w1)) = length (rxbuf (priv w))
               /\ rx_packets (d_statistics (dev (priv w1)))
                  = rx_packets (d_statistics (dev (priv w))) + 1
               /\ bifup (priv w1) = bifup (priv w))
    by (subst w1; simpl; auto).
  clearbody w1. destruct H1 as (<- & <- & Hp & <-). rewrite <- Hp. clear Hp.
  assert (Hin : forall f c wa,
    rxlen (priv wa) = rxlen (priv w1) ->
    length (rxbuf (priv wa)) = length (rxbuf (priv w1)) ->
    rx_packets (d_statistics (dev (priv wa)))
    = rx_packets (d_statistics (dev (priv w1))) ->
    bifup (priv wa) = bifup (priv w1) ->
    let wb := net_input f c wa in
    let wc := if 0 <? d_len (dev (priv wb)) then fst (slip_transmit wb) else wb in
    rxlen (priv (slip_semgive wc)) = rxlen (priv w1)
    /\ length (rxbuf (priv (slip_semgive wc))) = length (rxbuf (priv w1))
    /\ rx_packets (d_statistics (dev (priv (slip_semgive wc))))
       = rx_packets (d_statistics (dev (priv w1)))
    /\ bifup (priv (slip_semgive wc)) = bifup (priv w1)).
  { intros f c wa Ha1 Ha2 Ha3 Ha4. cbv zeta.
    destruct (net_input_rx f c wa) as (Hb1 & Hb2 & Hb3 & Hb4).
    destruct (slip_transmit_rx (net_input f c wa)) as (Hc1 & Hc2 & Hc3 & Hc4).
    unfold slip_semgive, on_priv.
    destruct (0 <? d_len (dev (priv (net_input f c wa))));
      cbn [priv rxlen rxbuf dev bifup set_waitsem];
      rewrite ?Hc1, ?Hc2, ?Hc3, ?Hc4; repeat split; congruence. }
  destruct (CONFIG_NET_IPv4 && _); [apply Hin; reflexivity|].
  destruct (CONFIG_NET_IPv6 && _); [apply Hin; reflexivity|].
  simpl. auto.
Qed.

Lemma slip_rxtask_dispatch_safe (w : world) :
  rxbuf_ok w -> rxbuf_ok (slip_rxtask_dispatch w).
Proof.
  intros [Hlen Hrx]. destruct (slip_rxtask_dispatch_rx w) as (H1 & H2 & _).
  unfold rxbuf_ok. rewrite H1, H2. auto.
Qed.

(** The receiver task never stores outside the receive array, and at
    every point where it waits for input the count is within the
    capacity. *)
Lemma slip_rxtask_loop_safe (n : nat) : forall (w : world) (input : list Z),
  pktsize_ok -> rxbuf_ok w ->
  rxtask_outcome_sat rxbuf_ok (slip_rxtask_loop n w input).
Proof.
  induction n as [|n IH]; intros w input Hcfg Hok; [exact Hok|].
  cbn [slip_rxtask_loop].
  destruct input as [|c input]; [exact Hok|].
  destruct (negb (bifup (priv w))); [apply IH; assumption|].
  destruct (slip_rxtask_begin_safe (uint8 c) w Hcfg Hok) as (w0 & -> & Hok0 & _).
  pose proof (slip_receive_safe (length input) input w0 (le_n _) Hok0) as Hrecv.
  destruct (slip_receive w0 input) as [pt w'|w' rest|]; simpl in Hrecv.
  - apply Hrecv.
  - apply IH; [assumption|]. apply slip_rxtask_dispatch_safe, Hrecv.
  - exact Hrecv.
Qed.

(** [slip_receive] returns only after it has read something. *)
Lemma slip_receive_consumes (n : nat) : forall (input : list Z) (w w' : world)
    (rest : list Z),
  (length input <= n)%nat ->
  slip_receive w input = Rx_returned w' rest ->
  (length rest < length input)%nat.
Proof.
  induction n as [|n IH]; intros input w w' rest Hn.
  - destruct input; [discriminate|simpl in Hn; lia].
  - destruct input as [|c input]; [discriminate|].
    cbn [slip_receive length] in Hn |- *.
    destruct (uint8 c =? SLIP_END).
    + destruct (0 <? rxlen (priv w)).
      * intros [= <- <-]. lia.
      * intros H. apply IH in H; lia.
    + destruct (uint8 c =? SLIP_ESC).
      * destruct input as [|c2 input]; [discriminate|]. cbn [length] in Hn |- *.
        destruct (rx_escaped (uint8 c2) w); [|discriminate].
        intros H. apply IH in H; lia.
      * destruct (rx_store (uint8 c) w); [|discriminate].
        intros H. apply IH in H; lia.
Qed.

(** The iterations [slip_rxtask] is given are enough: on a finite input
    the task always ends up waiting for more. *)
Lemma slip_rxtask_loop_enough (n : nat) : forall (w : world) (input : list Z),
  (length input < n)%nat ->
  forall w' rest, slip_rxtask_loop n w input <> Rxtask_more w' rest.
Proof.
  induction n as [|n IH]; intros w input Hn w' rest; [lia|].
  cbn [slip_rxtask_loop].
  destruct input as [|c input]; [discriminate|]. cbn [length] in Hn.
  destruct (negb (bifup (priv w))); [apply IH; lia|].
  destruct (slip_rxtask_begin (uint8 c) w) as [w0|]; [|discriminate].
  destruct (slip_receive w0 input) as [pt w1|w1 rest1|] eqn:Hrecv;
    try discriminate.
  apply IH. apply slip_receive_consumes with (n := length input) in Hrecv; lia.
Qed.

Lemma slip_rxtask_blocks (w : world) (input : list Z) :
  pktsize_ok -> rxbuf_ok w ->
  exists pt w', slip_rxtask w input = Rxtask_blocked pt w' /\ rxbuf_ok w'.
Proof.
  intros Hcfg Hok. unfold slip_rxtask.
  pose proof (slip_rxtask_loop_safe (S (length input)) w input Hcfg Hok) as Hs.
  pose proof (slip_rxtask_loop_enough (S (length input)) w input (Nat.lt_succ_diag_r _))
    as He.
  destruct (slip_rxtask_loop (S (length input)) w input) as [pt w'|w' rest|].
  - eauto.
  - exfalso. eapply He. reflexivity.
  - destruct Hs.
Qed.


Lemma rx_packet_length (w : world) :
  length (rx_packet w) = Z.to_nat (rxlen (priv w)).
Proof. apply slice_length. Qed.

(** Plain bytes are stored one after the other until the array is full;
    the rest is dropped. *)
Lemma slip_receive_plain (bs : list Z) : forall (w : world) (rest : list Z),
  CONFIG_NET_SLIP_PKTSIZE + 2 <= 65535 ->
  rxbuf_ok w ->
  Forall plain_byte bs ->
  exists w', slip_receive w (bs ++ rest) = slip_receive w' rest
    /\ rxbuf_ok w'
    /\ rx_only w w'
    /\ calls w' = calls w
    /\ rxlen (priv w')
       = Z.min (rxlen (priv w) + Z.of_nat (length bs)) SLIP_BUFSIZE
    /\ rx_packet w' = take (Z.to_nat SLIP_BUFSIZE) (rx_packet w ++ bs).
Proof.
  induction bs as [|b bs IH]; intros w rest Hmax Hok Hplain.
  - exists w. pose proof Hok as [_ Hrx]. cbn [app length]. rewrite app_nil_r.
    split_conj; try reflexivity; try exact Hok; try apply rx_only_refl;
      try lia.
    symmetry. apply take_ge. rewrite rx_packet_length. lia.
  - apply Forall_cons in Hplain as [(Hb & Hend & Hesc) Hplain].
    cbn [app]. rewrite slip_receive_data by (rewrite uint8_id; assumption).
    rewrite uint8_id by assumption.
    pose proof Hok as [_ Hrx].
    destruct (Z.lt_ge_cases (rxlen (priv w)) SLIP_BUFSIZE) as [Hroom|Hfull].
    + destruct (rx_store_room b w Hmax Hok Hroom)
        as (w1 & -> & Hok1 & Hlen1 & Hpkt1 & Hcalls1 & Hfr1).
      destruct (IH w1 rest Hmax Hok1 Hplain)
        as (w' & -> & Hok' & Hfr' & Hcalls' & Hlen' & Hpkt').
      exists w'. rewrite Hpkt', Hpkt1, Hlen', Hlen1, <- app_assoc.
      cbn [length].
      split_conj; try apply Hok'; eauto using rx_only_trans;
        try congruence; try lia.
    + rewrite rx_store_full by exact Hfull.
      destruct (IH w rest Hmax Hok Hplain)
        as (w' & -> & Hok' & Hfr' & Hcalls' & Hlen' & Hpkt').
      exists w'. rewrite Hpkt', Hlen'. cbn [length].
      split_conj; try apply Hok'; auto; try lia.
      assert (Hl : Z.to_nat SLIP_BUFSIZE = length (rx_packet w))
        by (rewrite rx_packet_length; lia).
      rewrite !(take_app_length' _ _ _ Hl). reflexivity.
Qed.

(** One iteration of the task with the interface up: the receive half,
    then the hand-over. *)
Lemma slip_rxtask_loop_frame (n : nat) (w : world) (input : list Z) :
  bifup (priv w) = true -> input <> [] ->
  slip_rxtask_loop (S n) w input
  = match slip_rxtask_frame w input with
    | Rx_blocked pt w' => Rxtask_blocked pt w'
    | Rx_returned w' rest => slip_rxtask_loop n (slip_rxtask_dispatch w') rest
    | Rx_fault => Rxtask_fault
    end.
Proof.
  intros Hup Hne. destruct input as [|c input]; [congruence|].
  cbn [slip_rxtask_loop slip_rxtask_frame]. rewrite Hup. cbn [negb].
  destruct (slip_rxtask_begin (uint8 c) w); reflexivity.
Qed.

(** C1, amended. A packet of 1 to MTU bytes that [slip_transmit] has put
    on the wire is given back unchanged by the receiver: fed the bytes of
    that one call, starting from no assembly in progress, [slip_receive]
    returns at their end with exactly the packet in the buffer, and
    [slip_rxtask], with the interface up, hands that packet to the stack
    and waits for the next one. For the packet of length 0 the receiver
    yields nothing: it is left waiting for input with an empty buffer. *)
Theorem slip_roundtrip (wt wr : world) (P : list Z) :
  pktsize_ok ->
  length (rxbuf (priv wr)) = Z.to_nat SLIP_BUFSIZE ->
  Forall is_uint8 P ->
  dev_packet wt = P ->
  Z.of_nat (length P) <= CONFIG_NET_SLIP_PKTSIZE ->
  (P <> [] ->
   decodes_to wr (slip_transmit_bytes wt) P
   /\ (bifup (priv wr) = true ->
       exists w', rx_packet w' = P
         /\ slip_rxtask wr (slip_transmit_bytes wt)
            = Rxtask_blocked Waiting (slip_rxtask_dispatch w')))
  /\ (P = [] ->
      slip_rxtask_frame wr (slip_transmit_bytes wt)
      = Rx_blocked Normal (on_priv (set_rxlen 0) wr)).
Proof.
  intros [Hmin Hmax] Hbuf Hbytes Hpkt Hlen. split.
  - intros Hne.
    assert (Hdec : decodes_to wr (slip_transmit_bytes wt) P).
    { unfold decodes_to.
      rewrite slip_transmit_bytes_eq, Hpkt, slip_rxtask_frame_end.
      destruct (slip_receive_escaped P (on_priv (set_rxlen 0) wr) [SLIP_END] Hmax)
        as (w' & Hrecv & Hok' & Hlen' & Hpkt' & _); auto.
      { split; [exact Hbuf|]. simpl. unfold SLIP_BUFSIZE. lia. }
      { simpl. unfold SLIP_BUFSIZE. lia. }
      exists w'. rewrite Hrecv, slip_receive_end.
      assert (Hpos : (0 <? rxlen (priv w')) = true).
      { apply Z.ltb_lt. rewrite Hlen'. simpl. destruct P; [congruence|].
        cbn [length]. lia. }
      rewrite Hpos. split; [reflexivity|]. rewrite Hpkt'. reflexivity. }
    split; [exact Hdec|]. intros Hup.
    destruct Hdec as (w' & Hframe & Hpkt').
    exists w'. split; [exact Hpkt'|].
    unfold slip_rxtask. rewrite slip_rxtask_loop_frame, Hframe.
    + rewrite slip_transmit_bytes_eq. reflexivity.
    + exact Hup.
    + rewrite slip_transmit_bytes_eq. discriminate.
  - intros ->. rewrite slip_transmit_bytes_eq, Hpkt. reflexivity.
Qed.

(** The first byte of a packet, when it is not an END, is stored at the
    start of the buffer whatever it is. *)
Lemma slip_rxtask_frame_first (w : world) (b : Z) (rest : list Z) :
  pktsize_ok -> rxbuf_ok w -> is_uint8 b -> b <> SLIP_END ->
  exists w0, slip_rxtask_frame w (b :: rest) = slip_receive w0 rest
    /\ rxbuf_ok w0
    /\ rx_only w w0
    /\ calls w0 = calls w
    /\ rxlen (priv w0) = 1
    /\ rx_packet w0 = [b].
Proof.
  intros [Hmin Hmax] [Hlen Hrx] Hb Hend.
  cbn [slip_rxtask_frame]. rewrite uint8_id by assumption.
  unfold slip_rxtask_begin, buf_write.
  apply Z.eqb_neq in Hend as Hendb. rewrite Hendb, uint8_id by assumption.
  assert (Hi : (0 < length (rxbuf (priv w)))%nat)
    by (rewrite Hlen; unfold SLIP_BUFSIZE; lia).
  apply Nat.ltb_lt in Hi as Hib. rewrite Hib.
  eexists. split; [reflexivity|]. split_conj.
  - unfold rxbuf_ok. simpl. rewrite length_insert.
    unfold SLIP_BUFSIZE in Hlen |- *. split; [assumption|lia].
  - unfold rx_only. simpl. split_conj; reflexivity.
  - reflexivity.
  - reflexivity.
  - unfold rx_packet. simpl. apply (slice_insert (rxbuf (priv w)) 0 b Hi).
Qed.

(** A run of plain bytes closed by an END, arriving while nothing is
    being assembled, is one packet: the run, cut at the capacity. *)
Lemma slip_rxtask_frame_plain (w : world) (bs : list Z) :
  pktsize_ok -> rxbuf_ok w -> bs <> [] -> Forall plain_byte bs ->
  exists w', slip_rxtask_frame w (bs ++ [SLIP_END]) = Rx_returned w' []
    /\ rxbuf_ok w'
    /\ rx_only w w'
    /\ calls w' = calls w
    /\ rxlen (priv w') = Z.min (Z.of_nat (length bs)) SLIP_BUFSIZE
    /\ rx_packet w' = take (Z.to_nat SLIP_BUFSIZE) bs.
Proof.
  intros Hcfg Hok Hne Hplain.
  destruct bs as [|b bs]; [congruence|]. clear Hne.
  apply Forall_cons in Hplain as [(Hb & Hend & Hesc) Hplain].
  pose proof Hcfg as [Hmin Hmax].
  destruct (slip_rxtask_frame_first w b (bs ++ [SLIP_END]) Hcfg Hok Hb Hend)
    as (w0 & Hfirst & Hok0 & Hfr0 & Hcalls0 & Hlen0 & Hpkt0).
  cbn [app]. rewrite Hfirst.
  destruct (slip_receive_plain bs w0 [SLIP_END] Hmax Hok0 Hplain)
    as (w' & -> & Hok' & Hfr' & Hcalls' & Hlen' & Hpkt').
  exists w'. rewrite slip_receive_end.
  assert (Hpos : (0 <? rxlen (priv w')) = true).
  { apply Z.ltb_lt. rewrite Hlen', Hlen0. unfold SLIP_BUFSIZE. lia. }
  rewrite Hpos, Hpkt', Hpkt0, Hlen', Hlen0. cbn [length app].
  split_conj; try apply Hok'; eauto using rx_only_trans; try congruence.
  lia.
Qed.

(** C5. The count of bytes in the receive buffer never exceeds the
    capacity of MTU + 2 bytes. Each step that touches the buffer (the
    default handler, the handler of the byte after an ESC, the first byte
    of a packet) stores inside the array and keeps the count within the
    capacity, and so does the receiver task on any input; a byte arriving
    at full capacity is dropped and leaves the state as it was; and
    MTU + 2 + 10 plain bytes followed by an END are received as exactly one
    packet, the first MTU + 2 of them. *)
Theorem rxbuf_capacity :
  pktsize_ok ->
  (forall w ch, rxbuf_ok w -> exists w', rx_store ch w = Some w' /\ rxbuf_ok w')
  /\ (forall w ch, rxbuf_ok w ->
        exists w', rx_escaped ch w = Some w' /\ rxbuf_ok w')
  /\ (forall w ch, rxbuf_ok w ->
        exists w', slip_rxtask_begin ch w = Some w' /\ rxbuf_ok w')
  /\ (forall w input, rxbuf_ok w ->
        exists pt w', slip_rxtask w input = Rxtask_blocked pt w' /\ rxbuf_ok w')
  /\ (forall w ch, rxlen (priv w) = SLIP_BUFSIZE -> rx_store ch w = Some w)
  /\ (forall w bs,
        rxbuf_ok w -> bifup (priv w) = true ->
        Z.of_nat (length bs) = CONFIG_NET_SLIP_PKTSIZE + 2 + 10 ->
        Forall plain_byte bs ->
        exists w1,
          slip_rxtask_frame w (bs ++ [SLIP_END]) = Rx_returned w1 []
          /\ rxlen (priv w1) = CONFIG_NET_SLIP_PKTSIZE + 2
          /\ rx_packet w1
             = take (Z.to_nat (CONFIG_NET_SLIP_PKTSIZE + 2)) bs
          /\ slip_rxtask w (bs ++ [SLIP_END])
             = Rxtask_blocked Waiting (slip_rxtask_dispatch w1)
          /\ rx_packets (d_statistics (dev (priv (slip_rxtask_dispatch w1))))
             = rx_packets (d_statistics (dev (priv w))) + 1).
Proof.
  intros Hcfg. repeat apply conj.
  - intros w ch Hok.
    destruct (rx_store_safe ch w Hok) as (w' & ? & ? & _). eauto.
  - intros w ch Hok.
    destruct (rx_escaped_safe ch w Hok) as (w' & ? & ? & _). eauto.
  - intros w ch Hok.
    destruct (slip_rxtask_begin_safe ch w Hcfg Hok) as (w' & ? & ? & _). eauto.
  - intros w input Hok. apply slip_rxtask_blocks; assumption.
  - intros w ch Hfull. apply rx_store_full. lia.
  - intros w bs Hok Hup Hlen Hplain. pose proof Hcfg as [Hmin Hmax].
    assert (Hne : bs <> []) by (destruct bs; [simpl in Hlen; lia|discriminate]).
    destruct (slip_rxtask_frame_plain w bs Hcfg Hok Hne Hplain)
      as (w1 & Hframe & Hok1 & Hfr1 & Hcalls1 & Hlen1 & Hpkt1).
    exists w1. fold SLIP_BUFSIZE.
    split; [exact Hframe|]. split; [unfold SLIP_BUFSIZE in Hlen1 |- *; lia|].
    split; [exact Hpkt1|]. split.
    + unfold slip_rxtask. rewrite slip_rxtask_loop_frame, Hframe.
      * rewrite length_app. cbn [length].
        replace (length bs + 1)%nat with (S (length bs)) by lia.
        reflexivity.
      * exact Hup.
      * destruct bs; discriminate.
    + destruct (slip_rxtask_dispatch_rx w1) as (_ & _ & -> & _).
      destruct Hfr1 as (_ & _ & _ & _ & _ & _ & -> & _). reflexivity.
Qed.


(** ** Idle line *)

Lemma slip_receive_idle (N : nat) (w : world) :
  rxlen (priv w) = 0 ->
  slip_receive w (replicate N SLIP_END) = Rx_blocked Normal w.
Proof.
  intros Hlen. induction N as [|N IH]; [reflexivity|].
  cbn [replicate]. rewrite slip_receive_end, Hlen. exact IH.
Qed.

Lemma slip_rxtask_loop_idle (n : nat) : forall (N : nat) (w : world),
  (N < n)%nat ->
  exists pt w', slip_rxtask_loop n w (replicate N SLIP_END) = Rxtask_blocked pt w'
    /\ calls w' = calls w /\ dev (priv w') = dev (priv w)
    /\ tty_out w' = tty_out w.
Proof.
  induction n as [|n IH]; intros N w Hn; [lia|].
  destruct N as [|N]; [simpl; eauto 6|].
  cbn [slip_rxtask_loop replicate].
  destruct (negb (bifup (priv w))); [apply IH; lia|].
  change (slip_rxtask_begin (uint8 SLIP_END) w)
    with (Some (on_priv (set_rxlen 0) w)).
  cbv beta iota.
  rewrite slip_receive_idle by reflexivity. eauto 6.
Qed.

(** C6. For a packet of length zero [slip_transmit] writes exactly two
    bytes, both END. And N consecutive END bytes yield no packet:
    [slip_receive] never returns on them, and the receiver task ends up
    waiting for input without having handed anything to the stack
    (no call made, statistics and serial output as before). *)
Theorem slip_idle (w : world) :
  (d_len (dev (priv w)) = 0 -> slip_transmit_bytes w = [SLIP_END; SLIP_END])
  /\ (forall N,
        (forall w' rest,
           slip_rxtask_frame w (replicate N SLIP_END) <> Rx_returned w' rest)
        /\ exists pt w',
             slip_rxtask w (replicate N SLIP_END) = Rxtask_blocked pt w'
             /\ calls w' = calls w
             /\ dev (priv w') = dev (priv w)
             /\ tty_out w' = tty_out w).
Proof.
  split.
  - intros Hlen. rewrite slip_transmit_bytes_eq. unfold dev_packet.
    rewrite Hlen. reflexivity.
  - intros N. split.
    + intros w' rest. destruct N as [|N]; [discriminate|].
      cbn [replicate]. rewrite slip_rxtask_frame_end.
      rewrite slip_receive_idle by reflexivity. discriminate.
    + unfold slip_rxtask. apply slip_rxtask_loop_idle.
      rewrite length_replicate. lia.
Qed.

(** ** Protocol violations *)

(** C4, amended. In [slip_receive], a byte read after an ESC that is
    neither ESC_END nor ESC_ESC is reported as a protocol violation and
    handed to the default handler, after which the loop reads the next byte
    in its normal state: no fault, decoding continues. The default handler
    appends the byte to the packet when the buffer has room; at full
    capacity the byte is dropped like any other. In particular END, ESC,
    0x41, END is received as the packet holding the one byte 0x41, and
    ESC, 0x41, END arriving when nothing is being assembled is received as
    a packet that contains 0x41. *)
Theorem rx_escaped_lenient :
  pktsize_ok ->
  (forall w b rest,
     rxbuf_ok w -> is_uint8 b -> b <> SLIP_ESC_END -> b <> SLIP_ESC_ESC ->
     exists w', rx_escaped b w = Some w'
       /\ slip_receive w (SLIP_ESC :: b :: rest) = slip_receive w' rest
       /\ calls w' = calls w ++ [Nerr_protocol_violation b]
       /\ rxbuf_ok w'
       /\ (rxlen (priv w) < SLIP_BUFSIZE ->
           rxlen (priv w') = rxlen (priv w) + 1
           /\ rx_packet w' = rx_packet w ++ [b])
       /\ (rxlen (priv w) = SLIP_BUFSIZE -> priv w' = priv w))
  /\ (forall w, rxbuf_ok w ->
        (exists w1,
           slip_rxtask_frame w [SLIP_END; SLIP_ESC; 65; SLIP_END]
           = Rx_returned w1 []
           /\ rx_packet w1 = [65]
           /\ calls w1 = calls w ++ [Nerr_protocol_violation 65])
        /\ (exists w1,
              slip_rxtask_frame w [SLIP_ESC; 65; SLIP_END] = Rx_returned w1 []
              /\ In 65 (rx_packet w1))).
Proof.
  intros Hcfg. pose proof Hcfg as [Hmin Hmax].
  assert (Hgen : forall w b rest,
     rxbuf_ok w -> is_uint8 b -> b <> SLIP_ESC_END -> b <> SLIP_ESC_ESC ->
     exists w', rx_escaped b w = Some w'
       /\ slip_receive w (SLIP_ESC :: b :: rest) = slip_receive w' rest
       /\ calls w' = calls w ++ [Nerr_protocol_violation b]
       /\ rxbuf_ok w'
       /\ (rxlen (priv w) < SLIP_BUFSIZE ->
           rxlen (priv w') = rxlen (priv w) + 1
           /\ rx_packet w' = rx_packet w ++ [b])
       /\ (rxlen (priv w) = SLIP_BUFSIZE -> priv w' = priv w)).
  { intros w b rest Hok Hb Hne1 Hne2.
    rewrite slip_receive_esc, uint8_id by assumption.
    unfold rx_escaped, rx_unescape.
    apply Z.eqb_neq in Hne1, Hne2. rewrite Hne1, Hne2.
    set (wl := log_call (Nerr_protocol_violation b) w).
    assert (Hokl : rxbuf_ok wl) by exact Hok.
    destruct (rx_store_safe b wl Hokl) as (w' & Hstore & Hok' & _ & Hcalls').
    exists w'. rewrite Hstore. split_conj; auto.
    - intros Hroom.
      destruct (rx_store_room b wl Hmax Hokl Hroom)
        as (w2 & Hstore2 & _ & Hlen2 & Hpkt2 & _).
      rewrite Hstore in Hstore2. injection Hstore2 as <-. auto.
    - intros Hfull. rewrite rx_store_full in Hstore by (simpl; lia).
      injection Hstore as <-. reflexivity. }
  split; [exact Hgen|]. intros w Hok. split.
  - rewrite slip_rxtask_frame_end.
    set (w0 := on_priv (set_rxlen 0) w).
    assert (Hok0 : rxbuf_ok w0).
    { destruct Hok as [Hlen _]. split; [exact Hlen|]. simpl.
      unfold SLIP_BUFSIZE. lia. }
    destruct (Hgen w0 65 [SLIP_END] Hok0)
      as (w1 & _ & -> & Hcalls1 & _ & Hroom & _);
      [unfold is_uint8; lia|discriminate|discriminate|].
    destruct Hroom as [Hlen1 Hpkt1]; [simpl; unfold SLIP_BUFSIZE; lia|].
    exists w1. rewrite slip_receive_end, Hlen1. split_conj; auto.
  - destruct (slip_rxtask_frame_first w SLIP_ESC [65; SLIP_END] Hcfg Hok)
      as (w0 & -> & Hok0 & _ & _ & Hlen0 & Hpkt0);
      [unfold is_uint8, SLIP_ESC; lia|discriminate|].
    destruct (slip_receive_plain [65] w0 [SLIP_END] Hmax Hok0)
      as (w1 & Hrecv & _ & _ & _ & Hlen1 & Hpkt1).
    { repeat constructor; unfold is_uint8; try lia; discriminate. }
    change ([65; SLIP_END]) with ([65] ++ [SLIP_END]). rewrite Hrecv.
    exists w1. rewrite slip_receive_end.
    assert (Hpos : (0 <? rxlen (priv w1)) = true).
    { apply Z.ltb_lt. rewrite Hlen1, Hlen0. unfold SLIP_BUFSIZE. simpl. lia. }
    rewrite Hpos. split; [reflexivity|].
    rewrite Hpkt1, Hpkt0. cbn [app].
    rewrite take_ge by (simpl; unfold SLIP_BUFSIZE; lia).
    right. left. reflexivity.
Qed.


(** ** Packets of an unsupported IP version *)

(** C7, amended. A completed packet whose version field matches neither
    IPv4 nor IPv6 is counted and dropped: no input function of the stack
    is called (no call at all is made), nothing is written to the serial
    line, and the driver structure is left as it was except for [dev],
    where the packet is counted both as received and as an error and
    [d_buf], [d_len] describe the receive buffer. *)
Theorem slip_rxtask_dispatch_unsupported (w : world) :
  Z.land (peek (rxbuf (priv w)) 0) IP_VERSION_MASK <> IPv4_VERSION ->
  Z.land (peek (rxbuf (priv w)) 0) IP_VERSION_MASK <> IPv6_VERSION ->
  let w' := slip_rxtask_dispatch w in
  let s := d_statistics (dev (priv w)) in
  calls w' = calls w
  /\ tty_out w' = tty_out w
  /\ link_unchanged w w'
  /\ dev (priv w')
     = mk_dev RXBUF (rxlen (priv w))
         (mk_stats (rx_packets s + 1) (rx_ipv4 s) (rx_ipv6 s)
            (rx_errors s + 1) (tx_packets s) (tx_done s)).
Proof.
  intros H4 H6. cbv zeta. unfold slip_rxtask_dispatch.
  change (dev_buffer (priv (NETDEV_RXPACKETS
            (on_dev (set_d_len (rxlen (priv (on_dev (set_d_buf RXBUF)
                                                (slip_semtake w)))))
               (on_dev (set_d_buf RXBUF) (slip_semtake w))))))
    with (rxbuf (priv w)).
  apply Z.eqb_neq in H4, H6. rewrite H4, H6, !andb_false_r.
  unfold link_unchanged. simpl. split_conj; auto. lia.
Qed.

(** ** The transmit notification *)

(** C9, amended. [slip_txavail] returns OK. With the interface up it sets
    [txnodelay] and signals the transmit task, and changes nothing else;
    with the interface down the notification is ignored and nothing
    changes. *)
Theorem slip_txavail_spec (w : world) :
  snd (slip_txavail w) = OK
  /\ (bifup (priv w) = true ->
      txnodelay (priv (fst (slip_txavail w))) = true
      /\ calls (fst (slip_txavail w))
         = calls w ++ [Sys_kill (txpid (priv w)) SIGALRM]
      /\ fst (slip_txavail w)
         = log_call (Sys_kill (txpid (priv w)) SIGALRM)
             (on_priv (set_txnodelay true) w))
  /\ (bifup (priv w) = false -> fst (slip_txavail w) = w).
Proof.
  unfold slip_txavail. destruct (bifup (priv w)); simpl; split_conj;
    auto; discriminate.
Qed.

(** ** The poll that follows a transmission *)

Lemma stack_fill_calls (item : list Z * Z) (w : world) :
  calls (stack_fill item w) = calls w.
Proof.
  unfold stack_fill. destruct (d_buf (dev (priv w))); reflexivity.
Qed.

Lemma slip_txpoll_calls (w : world) :
  calls (fst (slip_txpoll w)) = calls w /\ snd (slip_txpoll w) = 0.
Proof.
  unfold slip_txpoll. cbn [fst snd]. split; [|reflexivity].
  destruct (0 <? d_len (dev (priv w))); [|reflexivity].
  destruct (negb _); [apply slip_transmit_calls|reflexivity].
Qed.

(** Polling the stack makes no call of its own besides the one recorded
    when it starts. *)
Lemma devif_walk_calls (items : list (list Z * Z)) : forall (w : world),
  calls (devif_walk items slip_txpoll w) = calls w.
Proof.
  induction items as [|item items IH]; intros w; [reflexivity|].
  cbn [devif_walk].
  destruct (slip_txpoll_calls (stack_fill item w)) as [Hc Hr].
  destruct (slip_txpoll (stack_fill item w)) as [w' bstop].
  cbn [fst snd] in Hc, Hr. subst bstop. cbn [Z.eqb].
  rewrite IH, Hc. apply stack_fill_calls.
Qed.

(** C10, amended. [slip_transmit] always leaves [txnodelay] set (and the
    interface flag as it was). An iteration of the transmit task that
    finds [txnodelay] set does not sleep: with the interface up the one
    call it makes is a poll of the stack; with the interface down it makes
    no call at all, neither sleep nor poll, and only clears the flag. So a
    transmitted packet is followed by one immediate poll as long as the
    interface is up. *)
Theorem slip_transmit_follow_up :
  (forall w,
     txnodelay (priv (fst (slip_transmit w))) = true
     /\ bifup (priv (fst (slip_transmit w))) = bifup (priv w))
  /\ (forall now_ticks items t,
        txnodelay (priv (tx_world t)) = true ->
        let t' := slip_txtask_iteration now_ticks items t in
        if bifup (priv (tx_world t))
        then exists c, is_poll c = true /\ is_sleep c = false
                       /\ calls (tx_world t') = calls (tx_world t) ++ [c]
        else calls (tx_world t') = calls (tx_world t)
             /\ txnodelay (priv (tx_world t')) = false).
Proof.
  split.
  - intros w. rewrite slip_transmit_priv. simpl. auto.
  - intros now_ticks items t Hflag. cbv zeta. unfold slip_txtask_iteration.
    change (txnodelay (priv (slip_semtake (tx_world t))))
      with (txnodelay (priv (tx_world t))).
    rewrite Hflag. cbn [negb].
    change (bifup (priv (slip_semgive (on_priv (set_txnodelay false)
                                         (slip_semtake (tx_world t))))))
      with (bifup (priv (tx_world t))).
    destruct (bifup (priv (tx_world t))); [|simpl; auto].
    destruct (0 <? _).
    + exists Net_devif_timer. split_conj; auto.
      cbn [tx_world]. unfold devif_timer.
      change (calls (slip_semgive ?x)) with (calls x).
      rewrite devif_walk_calls. reflexivity.
    + exists Net_devif_poll. split_conj; auto.
      cbn [tx_world]. unfold devif_poll.
      change (calls (slip_semgive ?x)) with (calls x).
      rewrite devif_walk_calls. reflexivity.
Qed.

(** * Further properties of the driver *)

(** ** The encoder *)

Lemma slip_escape_length (b : Z) :
  length (slip_escape b) = if slip_special b then 2%nat else 1%nat.
Proof.
  unfold slip_escape, slip_special.
  destruct (b =? SLIP_END); [reflexivity|].
  destruct (b =? SLIP_ESC); reflexivity.
Qed.

Lemma slip_escaped_length (P : list Z) :
  length (flat_map slip_escape P)
  = (length P + length (List.filter slip_special P))%nat.
Proof.
  induction P as [|b P IH]; [reflexivity|].
  cbn [flat_map List.filter length]. rewrite length_app, IH, slip_escape_length.
  destruct (slip_special b); cbn [length]; lia.
Qed.

(** X1. The number of bytes [slip_transmit] writes is the length of the
    packet, plus one for each END or ESC byte in it, plus the two framing
    bytes: never less than [d_len + 2] and never more than
    [2 * d_len + 2]. *)
Theorem slip_transmit_length (w : world) :
  let P := dev_packet w in
  length P = Z.to_nat (d_len (dev (priv w)))
  /\ length (slip_transmit_bytes w)
     = (length P + length (List.filter slip_special P) + 2)%nat
  /\ (length P + 2 <= length (slip_transmit_bytes w) <= 2 * length P + 2)%nat.
Proof.
  cbv zeta. split; [apply slice_length|].
  rewrite slip_transmit_bytes_eq. cbn [length].
  rewrite length_app, slip_escaped_length. cbn [length].
  pose proof (filter_length slip_special (dev_packet w)) as Hf.
  pose proof (List.filter_length_le slip_special (dev_packet w)) as Hle.
  lia.
Qed.

Lemma slip_escape_head (b : Z) :
  exists c rest, slip_escape b = c :: rest
    /\ (c = SLIP_ESC <-> slip_special b = true).
Proof.
  unfold slip_escape, slip_special.
  destruct (b =? SLIP_END) eqn:Hend; [|destruct (b =? SLIP_ESC) eqn:Hesc].
  - eexists _, _. split; [reflexivity|]. tauto.
  - eexists _, _. split; [reflexivity|]. tauto.
  - eexists _, _. split; [reflexivity|]. apply Z.eqb_neq in Hesc.
    cbn [orb]. split; [congruence|discriminate].
Qed.

(** The escaping of a packet determines the packet. *)
Lemma slip_escaped_injective (P : list Z) : forall Q,
  flat_map slip_escape P = flat_map slip_escape Q -> P = Q.
Proof.
  induction P as [|p P IH]; intros [|q Q] H.
  - reflexivity.
  - destruct (slip_escape_head q) as (c & rest & Hq & _).
    cbn [flat_map] in H. rewrite Hq in H. discriminate.
  - destruct (slip_escape_head p) as (c & rest & Hp & _).
    cbn [flat_map] in H. rewrite Hp in H. discriminate.
  - cbn [flat_map] in H. unfold slip_escape at 1 3 in H.
    destruct (p =? SLIP_END) eqn:Hpe; [|destruct (p =? SLIP_ESC) eqn:Hps];
      (destruct (q =? SLIP_END) eqn:Hqe; [|destruct (q =? SLIP_ESC) eqn:Hqs]);
      cbn [app] in H; try discriminate;
      repeat match goal with
             | E : (_ =? _) = true |- _ => apply Z.eqb_eq in E
             | E : (_ =? _) = false |- _ => apply Z.eqb_neq in E
             end;
      injection H as H; subst; try congruence.
    + f_equal. apply IH. congruence.
    + f_equal. apply IH. congruence.
    + f_equal. apply IH. assumption.
Qed.

(** X2. Two packets that [slip_transmit] puts on the wire as the same
    bytes are the same packet: the framing loses nothing, whatever the
    length and the content of the packets. *)
Theorem slip_transmit_injective (w1 w2 : world) :
  slip_transmit_bytes w1 = slip_transmit_bytes w2 ->
  dev_packet w1 = dev_packet w2.
Proof.
  rewrite !slip_transmit_bytes_eq. intros H. injection H as H.
  apply app_inv_tail in H. apply slip_escaped_injective, H.
Qed.

(** X3. [slip_transmit] only appends to the serial output and counts the
    packet once as sent and once as done: it returns OK, makes no call,
    leaves [d_buf], [d_len] and both buffers as they are (the packet is
    still described by [dev] afterwards), and changes no other field of
    the driver structure than [txnodelay]. *)
Theorem slip_transmit_effect (w : world) :
  let w' := fst (slip_transmit w) in
  let s := d_statistics (dev (priv w)) in
  snd (slip_transmit w) = OK
  /\ tty_out w' = tty_out w ++ slip_transmit_bytes w
  /\ calls w' = calls w
  /\ dev (priv w')
     = mk_dev (d_buf (dev (priv w))) (d_len (dev (priv w)))
         (mk_stats (rx_packets s) (rx_ipv4 s) (rx_ipv6 s) (rx_errors s)
            (tx_packets s + 1) (tx_done s + 1))
  /\ dev_packet w' = dev_packet w
  /\ bifup (priv w') = bifup (priv w)
  /\ fd (priv w') = fd (priv w)
  /\ rxlen (priv w') = rxlen (priv w)
  /\ rxpid (priv w') = rxpid (priv w)
  /\ txpid (priv w') = txpid (priv w)
  /\ waitsem (priv w') = waitsem (priv w)
  /\ rxbuf (priv w') = rxbuf (priv w)
  /\ txbuf (priv w') = txbuf (priv w).
Proof.
  cbv zeta. split; [reflexivity|]. split.
  { rewrite slip_transmit_bytes_eq. apply slip_transmit_out. }
  split; [apply slip_transmit_calls|].
  unfold dev_packet, dev_buffer. rewrite slip_transmit_priv. simpl.
  split_conj; reflexivity.
Qed.

(** ** The decoder *)

Lemma slip_receive_skip_ends (N : nat) (w : world) (rest : list Z) :
  rxlen (priv w) = 0 ->
  slip_receive w (replicate N SLIP_END ++ rest) = slip_receive w rest.
Proof.
  intros Hlen. induction N as [|N IH]; [reflexivity|].
  cbn [replicate app]. rewrite slip_receive_end, Hlen. exact IH.
Qed.

(** A framed packet, possibly followed by more input, is given back and
    the input after it is left untouched. *)
Lemma slip_receive_frame_body (w : world) (P rest : list Z) :
  pktsize_ok -> rxbuf_ok w -> rxlen (priv w) = 0 -> rx_sized P ->
  exists w', slip_receive w (flat_map slip_escape P ++ SLIP_END :: rest)
             = Rx_returned w' rest
    /\ rx_packet w' = P
    /\ rxbuf_ok w'
    /\ rx_only w w'
    /\ calls w' = calls w.
Proof.
  intros [Hmin Hmax] Hok Hlen (Hne & Hsize & Hbytes).
  destruct (slip_receive_escaped P w (SLIP_END :: rest) Hmax Hok)
    as (w' & Hrecv & Hok' & Hlen' & Hpkt' & Hcalls'); [lia|assumption|].
  pose proof (slip_receive_safe _ (flat_map slip_escape P ++ SLIP_END :: rest)
                w (le_n _) Hok) as Hsafe.
  rewrite Hrecv, slip_receive_end in *.
  assert (Hpos : (0 <? rxlen (priv w')) = true).
  { apply Z.ltb_lt. rewrite Hlen', Hlen. destruct P; [congruence|].
    cbn [length]. lia. }
  rewrite Hpos in *. destruct Hsafe as [_ Hfr].
  exists w'. split_conj; auto.
  rewrite Hpkt'. unfold rx_packet. rewrite Hlen. reflexivity.
Qed.

Lemma replicate_end_shift (k : nat) (l : list Z) :
  replicate k SLIP_END ++ SLIP_END :: l = SLIP_END :: replicate k SLIP_END ++ l.
Proof. induction k as [|k IH]; [reflexivity|]. cbn [replicate app]. rewrite IH. reflexivity. Qed.

(** A frame behind any number of END bytes, with more input after it. *)
Lemma slip_rxtask_frame_skip (w : world) (k : nat) (P rest : list Z) :
  pktsize_ok ->
  length (rxbuf (priv w)) = Z.to_nat SLIP_BUFSIZE ->
  rx_sized P ->
  exists w',
    slip_rxtask_frame w (replicate k SLIP_END ++ slip_frame P ++ rest)
    = Rx_returned w' rest
    /\ rx_packet w' = P
    /\ rx_only w w'
    /\ calls w' = calls w.
Proof.
  intros Hcfg Hbuf Hsized. pose proof Hcfg as [Hmin Hmax].
  unfold slip_frame. cbn [app]. rewrite replicate_end_shift.
  rewrite slip_rxtask_frame_end, slip_receive_skip_ends by reflexivity.
  rewrite <- app_assoc. cbn [app].
  destruct (slip_receive_frame_body (on_priv (set_rxlen 0) w) P rest Hcfg)
    as (w' & Hrecv & Hpkt & _ & Hfr & Hcalls); auto.
  { split; [exact Hbuf|]. simpl. unfold SLIP_BUFSIZE. lia. }
  exists w'. split_conj; auto.
Qed.

(** X4. END bytes in front of a frame are skipped: whatever the number of
    extra END bytes before it and whatever follows it, a framed packet of
    1 to MTU + 2 bytes arriving when nothing is being assembled is
    received exactly, the receiver stops right after its closing END, and
    nothing but the receive buffer and its count has changed. *)
Theorem slip_rxtask_frame_resync (w : world) (k : nat) (P rest : list Z) :
  pktsize_ok ->
  length (rxbuf (priv w)) = Z.to_nat SLIP_BUFSIZE ->
  rx_sized P ->
  exists w',
    slip_rxtask_frame w (replicate k SLIP_END ++ slip_frame P ++ rest)
    = Rx_returned w' rest
    /\ rx_packet w' = P
    /\ rx_only w w'
    /\ calls w' = calls w.
Proof. apply slip_rxtask_frame_skip. Qed.

Lemma slip_receive_returned (n : nat) : forall (input : list Z) (w w' : world)
    (rest : list Z),
  (length input <= n)%nat ->
  slip_receive w input = Rx_returned w' rest ->
  0 < rxlen (priv w')
  /\ exists pre c, input = pre ++ c :: rest /\ uint8 c = SLIP_END.
Proof.
  induction n as [|n IH]; intros input w w' rest Hn.
  - destruct input; [discriminate|simpl in Hn; lia].
  - destruct input as [|c input]; [discriminate|].
    cbn [slip_receive length] in Hn |- *.
    destruct (uint8 c =? SLIP_END) eqn:Hend.
    + destruct (0 <? rxlen (priv w)) eqn:Hpos.
      * intros [= <- <-]. apply Z.ltb_lt in Hpos. apply Z.eqb_eq in Hend.
        split; [exact Hpos|]. exists [], c. auto.
      * intros H. apply IH in H as (Hlen & pre & c' & -> & Hc'); [|lia].
        split; [exact Hlen|]. exists (c :: pre), c'. auto.
    + destruct (uint8 c =? SLIP_ESC).
      * destruct input as [|c2 input]; [discriminate|]. cbn [length] in Hn.
        destruct (rx_escaped (uint8 c2) w); [|discriminate].
        intros H. apply IH in H as (Hlen & pre & c' & -> & Hc'); [|lia].
        split; [exact Hlen|]. exists (c :: c2 :: pre), c'. auto.
      * destruct (rx_store (uint8 c) w); [|discriminate].
        intros H. apply IH in H as (Hlen & pre & c' & -> & Hc'); [|lia].
        split; [exact Hlen|]. exists (c :: pre), c'. auto.
Qed.

(** X5. [slip_receive] returns only on an END byte and only with at least
    one byte in the buffer: the input it leaves is what follows that END,
    and a packet of length zero is never handed on. In particular it does
    not return on input without an END byte. *)
Theorem slip_receive_returns_at_end (w w' : world) (input rest : list Z) :
  slip_receive w input = Rx_returned w' rest ->
  0 < rxlen (priv w')
  /\ (exists pre c, input = pre ++ c :: rest /\ uint8 c = SLIP_END)
  /\ ~ Forall (fun c => uint8 c <> SLIP_END) input.
Proof.
  intros H. apply slip_receive_returned with (n := length input) in H; [|lia].
  destruct H as (Hlen & pre & c & -> & Hc). split; [exact Hlen|].
  split; [eauto|]. intros Hall.
  apply Forall_app in Hall as [_ Hall]. apply Forall_cons in Hall as [Hne _].
  contradiction.
Qed.

Lemma slip_rxtask_loop_down (n : nat) : forall (w : world) (input : list Z),
  bifup (priv w) = false -> (length input < n)%nat ->
  slip_rxtask_loop n w input = Rxtask_blocked Waiting w.
Proof.
  induction n as [|n IH]; intros w input Hdown Hn; [lia|].
  destruct input as [|c input]; [reflexivity|].
  cbn [slip_rxtask_loop length] in Hn |- *. rewrite Hdown. cbn [negb].
  apply IH; [exact Hdown|lia].
Qed.

(** X6. While the interface is down the receiver task reads and discards:
    whatever the serial input, it ends up waiting for the next byte with
    the state exactly as it was (nothing stored, nothing counted, no call,
    nothing sent). *)
Theorem slip_rxtask_down (w : world) (input : list Z) :
  bifup (priv w) = false ->
  slip_rxtask w input = Rxtask_blocked Waiting w.
Proof.
  intros Hdown. unfold slip_rxtask. apply slip_rxtask_loop_down; [exact Hdown|lia].
Qed.

(** ** Handing a packet to the stack *)

(** Reduces the field projections of a state written with the update
    functions, and nothing else. *)
Tactic Notation "fields" :=
  cbn [priv tty_out calls bifup txnodelay fd rxlen rxpid txpid waitsem dev
       rxbuf txbuf d_buf d_len d_statistics rx_packets rx_ipv4 rx_ipv6
       rx_errors tx_packets tx_done on_priv on_dev log_call set_stats
       set_d_buf set_d_len set_bifup set_txnodelay set_fd set_rxlen set_rxpid
       set_txpid set_waitsem set_dev set_rxbuf set_txbuf NETDEV_TXPACKETS
       NETDEV_TXDONE NETDEV_RXPACKETS NETDEV_RXIPV4 NETDEV_RXIPV6
       NETDEV_RXERRORS slip_semtake slip_semgive fst snd].

Tactic Notation "fields" "in" hyp(H) :=
  cbn [priv tty_out calls bifup txnodelay fd rxlen rxpid txpid waitsem dev
       rxbuf txbuf d_buf d_len d_statistics rx_packets rx_ipv4 rx_ipv6
       rx_errors tx_packets tx_done on_priv on_dev log_call set_stats
       set_d_buf set_d_len set_bifup set_txnodelay set_fd set_rxlen set_rxpid
       set_txpid set_waitsem set_dev set_rxbuf set_txbuf NETDEV_TXPACKETS
       NETDEV_TXDONE NETDEV_RXPACKETS NETDEV_RXIPV4 NETDEV_RXIPV6
       NETDEV_RXERRORS slip_semtake slip_semgive fst snd] in H.

(** An input function of the stack called on the receive buffer, followed
    by the transmission of the reply if the stack has left one. *)
Lemma net_input_reply (f : list Z -> Z -> list Z * Z) (c : list Z -> call)
    (w : world) :
  d_buf (dev (priv w)) = RXBUF ->
  let r := f (rxbuf (priv w)) (d_len (dev (priv w))) in
  let buf' := buf_fill (fst r) (rxbuf (priv w)) in
  let wb := net_input f c w in
  let wc := if 0 <? d_len (dev (priv wb)) then fst (slip_transmit wb) else wb in
  calls wc
  = calls w ++ [c (slice (rxbuf (priv w)) 0 (Z.to_nat (d_len (dev (priv w)))))]
  /\ tty_out wc
     = tty_out w ++ (if 0 <? snd r
                     then slip_frame (slice buf' 0 (Z.to_nat (snd r)))
                     else [])
  /\ priv wc
     = let p1 := set_dev (set_d_len (snd r) (dev (priv w)))
                   (set_rxbuf buf' (priv w)) in
       if 0 <? snd r
       then set_txnodelay true
              (priv (NETDEV_TXDONE (NETDEV_TXPACKETS (mk_world p1 [] []))))
       else p1.
Proof.
  intros Hbuf. cbv zeta. unfold net_input, dev_buffer. rewrite Hbuf.
  destruct (f (rxbuf (priv w)) (d_len (dev (priv w)))) as [data len'].
  fields. rewrite Hbuf. fields.
  destruct (0 <? len').
  - rewrite slip_transmit_calls, slip_transmit_out, slip_transmit_priv.
    unfold dev_packet, dev_buffer. fields. rewrite Hbuf.
    split_conj; reflexivity.
  - fields. rewrite app_nil_r. split_conj; reflexivity.
Qed.

(** [slip_rxtask_dispatch] up to the test of the version field. *)
Lemma slip_rxtask_dispatch_unfold (w : world) :
  let w1 := NETDEV_RXPACKETS
              (on_dev (fun d => set_d_len (rxlen (priv w)) (set_d_buf RXBUF d))
                 (slip_semtake w)) in
  let vhl := peek (rxbuf (priv w)) 0 in
  slip_rxtask_dispatch w
  = slip_semgive
      (if CONFIG_NET_IPv4 && (Z.land vhl IP_VERSION_MASK =? IPv4_VERSION) then
         let wb := net_input ipv4_input Net_ipv4_input (NETDEV_RXIPV4 w1) in
         if 0 <? d_len (dev (priv wb)) then fst (slip_transmit wb) else wb
       else if CONFIG_NET_IPv6 && (Z.land vhl IP_VERSION_MASK =? IPv6_VERSION) then
         let wb := net_input ipv6_input Net_ipv6_input (NETDEV_RXIPV6 w1) in
         if 0 <? d_len (dev (priv wb)) then fst (slip_transmit wb) else wb
       else NETDEV_RXERRORS w1).
Proof. reflexivity. Qed.

Lemma rx_packet_head (w : world) :
  0 < rxlen (priv w) -> hd 0 (rx_packet w) = peek (rxbuf (priv w)) 0.
Proof.
  intros Hpos. unfold rx_packet.
  destruct (Z.to_nat (rxlen (priv w))) eqn:Hn; [lia|]. reflexivity.
Qed.

(** The IPv4 branch of [slip_rxtask_dispatch]. *)
Lemma slip_rxtask_dispatch_v4 (w : world) :
  CONFIG_NET_IPv4 = true ->
  Z.land (peek (rxbuf (priv w)) 0) IP_VERSION_MASK = IPv4_VERSION ->
  let r := ipv4_input (rxbuf (priv w)) (rxlen (priv w)) in
  let buf' := buf_fill (fst r) (rxbuf (priv w)) in
  let reply := 0 <? snd r in
  let w' := slip_rxtask_dispatch w in
  let s := d_statistics (dev (priv w)) in
  calls w' = calls w ++ [Net_ipv4_input (rx_packet w)]
  /\ tty_out w'
     = tty_out w ++ (if reply then slip_frame (slice buf' 0 (Z.to_nat (snd r)))
                     else [])
  /\ rxbuf (priv w') = buf'
  /\ dev (priv w')
     = mk_dev RXBUF (snd r)
         (mk_stats (rx_packets s + 1) (rx_ipv4 s + 1) (rx_ipv6 s) (rx_errors s)
            (if reply then tx_packets s + 1 else tx_packets s)
            (if reply then tx_done s + 1 else tx_done s))
  /\ txnodelay (priv w') = (if reply then true else txnodelay (priv w))
  /\ waitsem (priv w') = waitsem (priv w)
  /\ rxlen (priv w') = rxlen (priv w)
  /\ txbuf (priv w') = txbuf (priv w).
Proof.
  intros Hcfg Hver. cbv zeta. rewrite slip_rxtask_dispatch_unfold. cbv zeta.
  apply Z.eqb_eq in Hver. rewrite Hcfg, Hver. cbn [andb].
  match goal with
  | |- context [net_input ?f ?c ?w0] =>
      destruct (net_input_reply f c w0 eq_refl) as (Hcalls & Hout & Hpriv)
  end.
  cbv zeta in Hcalls, Hout, Hpriv. fields in Hcalls. fields in Hout.
  fields in Hpriv.
  unfold rx_packet.
  change (calls (slip_semgive ?x)) with (calls x).
  change (tty_out (slip_semgive ?x)) with (tty_out x).
  change (priv (slip_semgive ?x))
    with (set_waitsem (waitsem (priv x) + 1) (priv x)).
  rewrite Hcalls, Hout, Hpriv.
  destruct (0 <? snd (ipv4_input (rxbuf (priv w)) (rxlen (priv w))));
    fields; split_conj; try reflexivity; lia.
Qed.



(** What [slip_rxtask_dispatch] leaves alone in every branch, and how it
    counts. *)
Lemma slip_rxtask_dispatch_link (w : world) :
  let w' := slip_rxtask_dispatch w in
  let s := d_statistics (dev (priv w)) in
  let s' := d_statistics (dev (priv w')) in
  (bifup (priv w') = bifup (priv w)
   /\ fd (priv w') = fd (priv w)
   /\ rxlen (priv w') = rxlen (priv w)
   /\ rxpid (priv w') = rxpid (priv w)
   /\ txpid (priv w') = txpid (priv w)
   /\ waitsem (priv w') = waitsem (priv w)
   /\ txbuf (priv w') = txbuf (priv w)
   /\ d_buf (dev (priv w')) = RXBUF)
  /\ (rx_packets s' = rx_packets s + 1
      /\ rx_ipv4 s' + rx_ipv6 s' + rx_errors s'
         = rx_ipv4 s + rx_ipv6 s + rx_errors s + 1
      /\ rx_ipv4 s <= rx_ipv4 s' /\ rx_ipv6 s <= rx_ipv6 s'
      /\ rx_errors s <= rx_errors s'
      /\ tx_packets s' - tx_done s' = tx_packets s - tx_done s).
Proof.
  cbv zeta. rewrite slip_rxtask_dispatch_unfold. cbv zeta.
  change (priv (slip_semgive ?x))
    with (set_waitsem (waitsem (priv x) + 1) (priv x)).
  destruct (CONFIG_NET_IPv4 && _); [|destruct (CONFIG_NET_IPv6 && _)].
  - match goal with
    | |- context [net_input ?f ?c ?w0] =>
        destruct (net_input_reply f c w0 eq_refl) as (_ & _ & Hpriv)
    end.
    cbv zeta in Hpriv. rewrite Hpriv. clear Hpriv.
    match goal with |- context [0 <? ?x] => destruct (0 <? x) end;
      simpl; split_conj; try reflexivity; lia.
  - match goal with
    | |- context [net_input ?f ?c ?w0] =>
        destruct (net_input_reply f c w0 eq_refl) as (_ & _ & Hpriv)
    end.
    cbv zeta in Hpriv. rewrite Hpriv. clear Hpriv.
    match goal with |- context [0 <? ?x] => destruct (0 <? x) end;
      simpl; split_conj; try reflexivity; lia.
  - simpl. split_conj; try reflexivity; lia.
Qed.

(** X9. Every packet the receiver hands over is counted as received and
    classified exactly once, as IPv4, as IPv6 or as an error, whatever its
    content and whatever the stack answers; so the receiver task keeps
    [rx_packets = rx_ipv4 + rx_ipv6 + rx_errors] on any input. *)
Theorem slip_rxtask_counts :
  (forall w,
     let s := d_statistics (dev (priv w)) in
     let s' := d_statistics (dev (priv (slip_rxtask_dispatch w))) in
     rx_packets s' = rx_packets s + 1
     /\ rx_ipv4 s' + rx_ipv6 s' + rx_errors s'
        = rx_ipv4 s + rx_ipv6 s + rx_errors s + 1
     /\ rx_ipv4 s <= rx_ipv4 s' /\ rx_ipv6 s <= rx_ipv6 s'
     /\ rx_errors s <= rx_errors s')
  /\ (forall w input,
        pktsize_ok -> rxbuf_ok w -> rx_counted w ->
        exists pt w', slip_rxtask w input = Rxtask_blocked pt w'
                      /\ rx_counted w').
Proof.
  split.
  - intros w. cbv zeta.
    destruct (slip_rxtask_dispatch_link w) as (_ & H1 & H2 & H3 & H4 & H5 & _).
    auto.
  - intros w input Hcfg Hok Hcnt.
    destruct (slip_rxtask_blocks w input Hcfg Hok) as (pt & w' & Hrun & _).
    exists pt, w'. split; [exact Hrun|].
    unfold slip_rxtask in Hrun. revert Hrun Hok Hcnt.
    generalize (S (length input)) as n. intros n. revert w input.
    induction n as [|n IH]; intros w input Hrun Hok Hcnt; [discriminate|].
    cbn [slip_rxtask_loop] in Hrun.
    destruct input as [|c input]; [injection Hrun as _ <-; exact Hcnt|].
    destruct (negb (bifup (priv w))); [eapply IH; eassumption|].
    destruct (slip_rxtask_begin_safe (uint8 c) w Hcfg Hok)
      as (w0 & Hbegin & Hok0 & Hfr0 & _).
    rewrite Hbegin in Hrun.
    pose proof (slip_receive_safe _ input w0 (le_n _) Hok0) as Hsafe.
    assert (Hdev : forall w1, rx_only w0 w1 -> rx_counted w1).
    { intros w1 Hfr1. unfold rx_counted in *.
      destruct Hfr0 as (_ & _ & _ & _ & _ & _ & Hd0 & _).
      destruct Hfr1 as (_ & _ & _ & _ & _ & _ & Hd1 & _).
      rewrite Hd1, Hd0. exact Hcnt. }
    destruct (slip_receive w0 input) as [pt1 w1|w1 rest|];
      cbn [rx_outcome_sat] in Hsafe; [| |discriminate].
    + injection Hrun as _ <-. apply Hdev, Hsafe.
    + destruct Hsafe as [Hok1 Hfr1].
      eapply IH; [exact Hrun|apply slip_rxtask_dispatch_safe, Hok1|].
      specialize (Hdev w1 Hfr1). unfold rx_counted in *.
      destruct (slip_rxtask_dispatch_link w1) as (_ & H1 & H2 & _).
      cbv zeta in H1, H2. lia.
Qed.

(** X10. The receiver task never touches what belongs to the transmit
    side or to the interface: on any input, the transmit buffer, the
    interface flag, the descriptor and the two thread IDs are as they
    were when it next waits for input, and the gate has been released as
    often as it has been taken. *)
Theorem slip_rxtask_keeps (w : world) (input : list Z) :
  pktsize_ok -> rxbuf_ok w ->
  exists pt w', slip_rxtask w input = Rxtask_blocked pt w'
    /\ txbuf (priv w') = txbuf (priv w)
    /\ bifup (priv w') = bifup (priv w)
    /\ fd (priv w') = fd (priv w)
    /\ rxpid (priv w') = rxpid (priv w)
    /\ txpid (priv w') = txpid (priv w)
    /\ waitsem (priv w') = waitsem (priv w).
Proof.
  intros Hcfg Hok.
  destruct (slip_rxtask_blocks w input Hcfg Hok) as (pt & w' & Hrun & _).
  exists pt, w'. split; [exact Hrun|].
  unfold slip_rxtask in Hrun. revert Hrun Hok.
  generalize (S (length input)) as n. intros n. revert w input.
  induction n as [|n IH]; intros w input Hrun Hok; [discriminate|].
  cbn [slip_rxtask_loop] in Hrun.
  destruct input as [|c input];
    [injection Hrun as _ <-; split_conj; reflexivity|].
  destruct (negb (bifup (priv w))); [eapply IH; eassumption|].
  destruct (slip_rxtask_begin_safe (uint8 c) w Hcfg Hok)
    as (w0 & Hbegin & Hok0 & Hfr0 & _).
  rewrite Hbegin in Hrun.
  pose proof (slip_receive_safe _ input w0 (le_n _) Hok0) as Hsafe.
  destruct (slip_receive w0 input) as [pt1 w1|w1 rest|];
    cbn [rx_outcome_sat] in Hsafe; [| |discriminate].
  - injection Hrun as _ <-. destruct Hsafe as [_ Hfr1].
    pose proof (rx_only_trans _ _ _ Hfr0 Hfr1)
      as (H1 & _ & H3 & H4 & H5 & H6 & _ & H8 & _).
    split_conj; assumption.
  - destruct Hsafe as [Hok1 Hfr1].
    pose proof (rx_only_trans _ _ _ Hfr0 Hfr1)
      as (H1 & _ & H3 & H4 & H5 & H6 & _ & H8 & _).
    destruct (slip_rxtask_dispatch_link w1)
      as ((D1 & D2 & _ & D4 & D5 & D6 & D7 & _) & _).
    cbv zeta in D1, D2, D4, D5, D6, D7.
    destruct (IH _ _ Hrun (slip_rxtask_dispatch_safe _ Hok1))
      as (I1 & I2 & I3 & I4 & I5 & I6).
    split_conj; congruence.
Qed.

Lemma slip_rxtask_loop_stream (Ps : list (list Z)) : forall (n : nat) (w : world),
  pktsize_ok -> rxbuf_ok w -> bifup (priv w) = true ->
  CONFIG_NET_IPv4 = true ->
  Forall (fun P => rx_sized P
                   /\ Z.land (hd 0 P) IP_VERSION_MASK = IPv4_VERSION) Ps ->
  (length (concat (map slip_frame Ps)) < n)%nat ->
  exists w', slip_rxtask_loop n w (concat (map slip_frame Ps))
             = Rxtask_blocked Waiting w'
    /\ calls w' = calls w ++ map Net_ipv4_input Ps.
Proof.
  induction Ps as [|P Ps IH]; intros n w Hcfg Hok Hup H4 HPs Hn.
  - destruct n; [simpl in Hn; lia|]. exists w. simpl. rewrite app_nil_r. auto.
  - apply Forall_cons in HPs as [[Hsized Hver] HPs].
    cbn [map concat] in Hn |- *. rewrite length_app in Hn.
    destruct n as [|n]; [lia|].
    rewrite slip_rxtask_loop_frame;
      [|exact Hup|unfold slip_frame; discriminate].
    pose proof Hok as [Hbuf _].
    destruct (slip_rxtask_frame_skip w 0 P (concat (map slip_frame Ps))
                Hcfg Hbuf Hsized) as (w1 & Hframe & Hpkt & Hfr & Hcalls).
    cbn [replicate app] in Hframe. rewrite Hframe.
    assert (Hok1 : rxbuf_ok w1).
    { unfold slip_frame in Hframe. cbn [app slip_rxtask_frame] in Hframe.
      destruct (slip_rxtask_begin_safe (uint8 SLIP_END) w Hcfg Hok)
        as (w0 & Hbegin & Hok0 & _).
      rewrite Hbegin in Hframe.
      match type of Hframe with
      | slip_receive _ ?input = _ =>
          pose proof (slip_receive_safe _ input w0 (le_n _) Hok0) as Hsafe
      end.
      rewrite Hframe in Hsafe. apply Hsafe. }
    assert (Hpos : 0 < rxlen (priv w1)).
    { destruct Hsized as (Hne & _). rewrite <- Hpkt in Hne.
      unfold rx_packet in Hne.
      destruct (Z.to_nat (rxlen (priv w1))) eqn:Hz;
        [exfalso; apply Hne; reflexivity|lia]. }
    assert (Hver1 : Z.land (peek (rxbuf (priv w1)) 0) IP_VERSION_MASK
                    = IPv4_VERSION).
    { rewrite <- rx_packet_head by exact Hpos. rewrite Hpkt. exact Hver. }
    destruct (slip_rxtask_dispatch_v4 w1 H4 Hver1) as (Hc & _).
    destruct (slip_rxtask_dispatch_link w1) as ((Hb & _) & _).
    cbv zeta in Hb.
    destruct (IH n (slip_rxtask_dispatch w1) Hcfg
                (slip_rxtask_dispatch_safe _ Hok1)) as (w' & Hrun & Hcalls');
      auto.
    { rewrite Hb. destruct Hfr as (-> & _). exact Hup. }
    { destruct (slip_frame P) eqn:E; [discriminate E|].
      cbn [length] in Hn. lia. }
    exists w'. split; [exact Hrun|].
    rewrite Hcalls', Hc, Hcalls, Hpkt, <- app_assoc. reflexivity.
Qed.

(** X11. A stream of frames is received packet by packet: fed the frames
    of any number of IPv4 packets of 1 to MTU + 2 bytes one after the
    other, with the interface up and IPv4 compiled in, the receiver task
    passes each packet to [ipv4_input], once and in order, makes no other
    call, and ends up waiting for the next frame; this holds whatever the
    stack answers to each packet. The frames are those [slip_transmit]
    writes. *)
Theorem slip_rxtask_stream (w : world) (Ps : list (list Z)) :
  pktsize_ok -> rxbuf_ok w -> bifup (priv w) = true ->
  CONFIG_NET_IPv4 = true ->
  Forall (fun P => rx_sized P
                   /\ Z.land (hd 0 P) IP_VERSION_MASK = IPv4_VERSION) Ps ->
  (forall wt, slip_transmit_bytes wt = slip_frame (dev_packet wt))
  /\ exists w', slip_rxtask w (concat (map slip_frame Ps))
                = Rxtask_blocked Waiting w'
       /\ calls w' = calls w ++ map Net_ipv4_input Ps.
Proof.
  intros Hcfg Hok Hup H4 HPs. split; [apply slip_transmit_bytes_eq|].
  unfold slip_rxtask. apply slip_rxtask_loop_stream; auto.
Qed.

(** ** The transmit task *)

Lemma buf_fill_slice (data buf : list Z) :
  (length data <= length buf)%nat ->
  slice (buf_fill data buf) 0 (length data) = data.
Proof.
  intros Hle. unfold buf_fill.
  rewrite take_ge by (rewrite length_app, length_drop; lia).
  apply slice_app_l.
Qed.

(** What a poll of the stack with [slip_txpoll] as callback leaves alone,
    when [d_buf] points at the transmit buffer. *)
Lemma devif_walk_tx (items : list (list Z * Z)) : forall (w : world),
  d_buf (dev (priv w)) = TXBUF ->
  let w' := devif_walk items slip_txpoll w in
  d_buf (dev (priv w')) = TXBUF
  /\ bifup (priv w') = bifup (priv w)
  /\ fd (priv w') = fd (priv w)
  /\ rxlen (priv w') = rxlen (priv w)
  /\ rxpid (priv w') = rxpid (priv w)
  /\ txpid (priv w') = txpid (priv w)
  /\ waitsem (priv w') = waitsem (priv w)
  /\ rxbuf (priv w') = rxbuf (priv w)
  /\ length (txbuf (priv w')) = length (txbuf (priv w)).
Proof.
  induction items as [|item items IH]; intros w Hbuf; cbv zeta.
  - split_conj; auto.
  - cbn [devif_walk].
    assert (Hstep : let w1 := fst (slip_txpoll (stack_fill item w)) in
      snd (slip_txpoll (stack_fill item w)) = 0
      /\ d_buf (dev (priv w1)) = TXBUF
      /\ bifup (priv w1) = bifup (priv w)
      /\ fd (priv w1) = fd (priv w)
      /\ rxlen (priv w1) = rxlen (priv w)
      /\ rxpid (priv w1) = rxpid (priv w)
      /\ txpid (priv w1) = txpid (priv w)
      /\ waitsem (priv w1) = waitsem (priv w)
      /\ rxbuf (priv w1) = rxbuf (priv w)
      /\ length (txbuf (priv w1)) = length (txbuf (priv w))).
    { cbv zeta. unfold slip_txpoll, stack_fill. rewrite Hbuf. cbn [fst snd].
      split; [reflexivity|].
      match goal with |- context [0 <? ?x] => destruct (0 <? x) end;
        [destruct (negb _)|]; rewrite ?slip_transmit_priv; simpl;
        rewrite ?buf_fill_length; split_conj; auto. }
    cbv zeta in Hstep. destruct (slip_txpoll (stack_fill item w)) as [w1 bstop].
    cbn [fst snd] in Hstep.
    destruct Hstep as (-> & Hb & H1 & H2 & H3 & H4 & H5 & H6 & H7 & H8).
    cbn [Z.eqb]. specialize (IH w1 Hb). cbv zeta in IH.
    destruct IH as (I0 & I1 & I2 & I3 & I4 & I5 & I6 & I7 & I8).
    split_conj; congruence.
Qed.

(** What such a poll writes: the frame of each item, in order. *)
Lemma devif_walk_out (items : list (list Z * Z)) : forall (w : world),
  d_buf (dev (priv w)) = TXBUF ->
  (forall buf len, devif_loopback buf len = false) ->
  Forall (tx_item_ok (length (txbuf (priv w)))) items ->
  tty_out (devif_walk items slip_txpoll w)
  = tty_out w ++ flat_map tx_item_frame items.
Proof.
  induction items as [|item items IH]; intros w Hbuf Hloop Hitems.
  - simpl. rewrite app_nil_r. reflexivity.
  - apply Forall_cons in Hitems as [[Hlen Hfit] Hitems].
    cbn [devif_walk flat_map].
    assert (Hstep : let w1 := fst (slip_txpoll (stack_fill item w)) in
      snd (slip_txpoll (stack_fill item w)) = 0
      /\ tty_out w1 = tty_out w ++ tx_item_frame item
      /\ d_buf (dev (priv w1)) = TXBUF
      /\ length (txbuf (priv w1)) = length (txbuf (priv w))).
    { cbv zeta. unfold slip_txpoll, tx_item_frame. rewrite Hloop.
      cbn [fst snd negb]. split; [reflexivity|].
      assert (Hd : d_len (dev (priv (stack_fill item w))) = snd item)
        by (unfold stack_fill; rewrite Hbuf; reflexivity).
      assert (Hp : dev_packet (stack_fill item w) = fst item).
      { unfold dev_packet. rewrite Hd, Hlen, Nat2Z.id.
        unfold stack_fill, dev_buffer. rewrite Hbuf. simpl. rewrite Hbuf.
        apply buf_fill_slice, Hfit. }
      assert (Ht : tty_out (stack_fill item w) = tty_out w)
        by (unfold stack_fill; rewrite Hbuf; reflexivity).
      assert (Hb : d_buf (dev (priv (stack_fill item w))) = TXBUF
                   /\ length (txbuf (priv (stack_fill item w)))
                      = length (txbuf (priv w))).
      { unfold stack_fill. rewrite Hbuf. simpl. rewrite buf_fill_length.
        auto. }
      rewrite Hd. destruct (0 <? snd item).
      - rewrite slip_transmit_out, slip_transmit_priv, Hp, Ht. simpl.
        unfold slip_frame. tauto.
      - rewrite Ht, app_nil_r. tauto. }
    cbv zeta in Hstep. destruct (slip_txpoll (stack_fill item w)) as [w1 bstop].
    cbn [fst snd] in Hstep. destruct Hstep as (-> & Hout & Hb & Hl).
    cbn [Z.eqb]. rewrite IH, Hout, <- app_assoc; auto.
    rewrite Hl. exact Hitems.
Qed.

(** [slip_txtask_iteration] with its intermediate states named. *)
Lemma slip_txtask_iteration_unfold (now_ticks : Z) (items : list (list Z * Z))
    (t : txtask_state) :
  let w0 := slip_semtake (tx_world t) in
  let w1 := if negb (txnodelay (priv w0))
            then log_call (Sys_usleep SLIP_WDDELAY) (slip_semgive w0)
            else slip_semgive (on_priv (set_txnodelay false) w0) in
  let w2 := on_dev (set_d_buf TXBUF) (slip_semtake w1) in
  let hsec := (((now_ticks - start_ticks t) mod 2 ^ 32) / TICK_PER_HSEC)
                mod 2 ^ 32 in
  slip_txtask_iteration now_ticks items t
  = if bifup (priv (tx_world t)) then
      mk_txtask
        (slip_semgive
           (devif_walk items slip_txpoll
              (log_call (if 0 <? hsec then Net_devif_timer else Net_devif_poll)
                 w2)))
        (if 0 <? hsec
         then (start_ticks t + hsec * TICK_PER_HSEC) mod 2 ^ 32
         else start_ticks t)
    else mk_txtask w1 (start_ticks t).
Proof.
  cbv zeta. unfold slip_txtask_iteration, devif_timer, devif_poll.
  assert (Hup : forall b : bool,
    bifup (priv (if b
                 then log_call (Sys_usleep SLIP_WDDELAY)
                        (slip_semgive (slip_semtake (tx_world t)))
                 else slip_semgive (on_priv (set_txnodelay false)
                                      (slip_semtake (tx_world t)))))
    = bifup (priv (tx_world t))) by (intros []; reflexivity).
  rewrite Hup. destruct (bifup (priv (tx_world t))); [|reflexivity].
  destruct (0 <? _); reflexivity.
Qed.


(** What an iteration of the transmit task writes to the serial line. *)
Lemma slip_txtask_iteration_out (now_ticks : Z) (items : list (list Z * Z))
    (t : txtask_state) :
  bifup (priv (tx_world t)) = true ->
  (forall buf len, devif_loopback buf len = false) ->
  Forall (tx_item_ok (length (txbuf (priv (tx_world t))))) items ->
  tty_out (tx_world (slip_txtask_iteration now_ticks items t))
  = tty_out (tx_world t) ++ flat_map tx_item_frame items.
Proof.
  intros Hup Hloop Hitems. rewrite slip_txtask_iteration_unfold. cbv zeta.
  rewrite Hup. cbn [tx_world].
  change (tty_out (slip_semgive ?x)) with (tty_out x).
  rewrite devif_walk_out.
  - f_equal. destruct (negb _); reflexivity.
  - reflexivity.
  - exact Hloop.
  - match goal with
    | |- Forall (tx_item_ok (length (txbuf (priv ?x)))) _ =>
        replace (txbuf (priv x)) with (txbuf (priv (tx_world t)));
        [exact Hitems|]
    end.
    destruct (negb _); reflexivity.
Qed.

(** X12. With the interface up, one iteration of the transmit task sends
    what the stack offers, in the order it is offered: each item with
    data is written to the serial line as one frame, an item without data
    writes nothing, and nothing else is written. This holds for items
    that fit the transmit buffer and a device that is not looped back. *)
Theorem slip_txtask_sends (now_ticks : Z) (items : list (list Z * Z))
    (t : txtask_state) :
  bifup (priv (tx_world t)) = true ->
  (forall buf len, devif_loopback buf len = false) ->
  Forall (tx_item_ok (length (txbuf (priv (tx_world t))))) items ->
  tty_out (tx_world (slip_txtask_iteration now_ticks items t))
  = tty_out (tx_world t) ++ flat_map tx_item_frame items.
Proof. apply slip_txtask_iteration_out. Qed.

(** X13. An iteration of the transmit task that does not find
    [txnodelay] set sleeps the poll delay of 1000000 microseconds before
    anything else. After the sleep it polls the stack once if the
    interface is up and makes no further call if it is down. *)
Theorem slip_txtask_sleeps (now_ticks : Z) (items : list (list Z * Z))
    (t : txtask_state) :
  txnodelay (priv (tx_world t)) = false ->
  let t' := slip_txtask_iteration now_ticks items t in
  exists after,
    calls (tx_world t') = calls (tx_world t) ++ Sys_usleep 1000000 :: after
    /\ (if bifup (priv (tx_world t))
        then exists c, is_poll c = true /\ after = [c]
        else after = []).
Proof.
  intros Hflag. cbv zeta. rewrite slip_txtask_iteration_unfold. cbv zeta.
  change (txnodelay (priv (slip_semtake (tx_world t))))
    with (txnodelay (priv (tx_world t))).
  rewrite Hflag. cbn [negb].
  destruct (bifup (priv (tx_world t))).
  - cbn [tx_world]. change (calls (slip_semgive ?x)) with (calls x).
    rewrite devif_walk_calls. fields. rewrite <- app_assoc.
    destruct (0 <? _).
    + exists [Net_devif_timer]. split; [reflexivity|].
      exists Net_devif_timer. split; reflexivity.
    + exists [Net_devif_poll]. split; [reflexivity|].
      exists Net_devif_poll. split; reflexivity.
  - exists []. split; reflexivity.
Qed.

(** X14. With the interface down, an iteration of the transmit task does
    not go near the stack or the serial line: the serial output, [dev],
    both buffers and the tick baseline are as before, no poll is made, and
    the gate is free again; the iteration only waits (or clears
    [txnodelay]). *)
Theorem slip_txtask_down (now_ticks : Z) (items : list (list Z * Z))
    (t : txtask_state) :
  bifup (priv (tx_world t)) = false ->
  let w := tx_world t in
  let t' := slip_txtask_iteration now_ticks items t in
  let w' := tx_world t' in
  tty_out w' = tty_out w
  /\ dev (priv w') = dev (priv w)
  /\ rxbuf (priv w') = rxbuf (priv w)
  /\ txbuf (priv w') = txbuf (priv w)
  /\ rxlen (priv w') = rxlen (priv w)
  /\ waitsem (priv w') = waitsem (priv w)
  /\ bifup (priv w') = false
  /\ txnodelay (priv w') = false
  /\ start_ticks t' = start_ticks t
  /\ calls w' = (if txnodelay (priv w) then calls w
                 else calls w ++ [Sys_usleep SLIP_WDDELAY]).
Proof.
  intros Hdown. cbv zeta. rewrite slip_txtask_iteration_unfold. cbv zeta.
  rewrite Hdown. cbn [tx_world start_ticks].
  change (txnodelay (priv (slip_semtake (tx_world t))))
    with (txnodelay (priv (tx_world t))).
  destruct (txnodelay (priv (tx_world t))) eqn:Hflag; cbn [negb]; fields;
    split_conj; auto; lia.
Qed.

(** X15. The transmit task never touches what belongs to the receive
    side or to the interface: after an iteration, whatever the stack
    offers, the receive buffer and its count, the interface flag, the
    descriptor and the thread IDs are as before, the transmit buffer has
    kept its size, and the gate has been released as often as taken. *)
Theorem slip_txtask_keeps (now_ticks : Z) (items : list (list Z * Z))
    (t : txtask_state) :
  let w := tx_world t in
  let w' := tx_world (slip_txtask_iteration now_ticks items t) in
  rxbuf (priv w') = rxbuf (priv w)
  /\ rxlen (priv w') = rxlen (priv w)
  /\ bifup (priv w') = bifup (priv w)
  /\ fd (priv w') = fd (priv w)
  /\ rxpid (priv w') = rxpid (priv w)
  /\ txpid (priv w') = txpid (priv w)
  /\ waitsem (priv w') = waitsem (priv w)
  /\ length (txbuf (priv w')) = length (txbuf (priv w)).
Proof.
  cbv zeta. rewrite slip_txtask_iteration_unfold. cbv zeta.
  destruct (bifup (priv (tx_world t))) eqn:Hup.
  - cbn [tx_world].
    match goal with
    | |- context [devif_walk ?i ?c ?x] =>
        destruct (devif_walk_tx i x eq_refl)
          as (_ & H1 & H2 & H3 & H4 & H5 & H6 & H7 & H8)
    end.
    cbv zeta in H1, H2, H3, H4, H5, H6, H7, H8.
    change (priv (slip_semgive ?x))
      with (set_waitsem (waitsem (priv x) + 1) (priv x)).
    cbn [rxbuf rxlen bifup fd rxpid txpid waitsem txbuf set_waitsem].
    rewrite H1, H2, H3, H4, H5, H6, H7, H8.
    destruct (negb _); fields; split_conj; auto; lia.
  - cbn [tx_world]. destruct (negb _); fields; split_conj; auto; lia.
Qed.

(** X16. The tick baseline of the transmit task advances by whole
    half-seconds and never runs ahead of the clock: after an iteration
    with the interface up, the time elapsed since the baseline is the
    remainder of the elapsed time before it by [TICK_PER_HSEC], so less
    than half a second. The timer poll is made exactly when at least half
    a second had elapsed, the plain poll otherwise. Time is counted modulo
    2^32 ticks. *)
Theorem slip_txtask_ticks (now_ticks : Z) (items : list (list Z * Z))
    (t : txtask_state) :
  0 < TICK_PER_HSEC ->
  bifup (priv (tx_world t)) = true ->
  let d := (now_ticks - start_ticks t) mod 2 ^ 32 in
  let t' := slip_txtask_iteration now_ticks items t in
  (now_ticks - start_ticks t') mod 2 ^ 32 = d mod TICK_PER_HSEC
  /\ 0 <= (now_ticks - start_ticks t') mod 2 ^ 32 < TICK_PER_HSEC
  /\ last (calls (tx_world t'))
     = Some (if TICK_PER_HSEC <=? d then Net_devif_timer else Net_devif_poll).
Proof.
  intros Htick Hup. cbv zeta. rewrite slip_txtask_iteration_unfold. cbv zeta.
  rewrite Hup. cbn [tx_world start_ticks].
  set (d := (now_ticks - start_ticks t) mod 2 ^ 32).
  assert (Hd : 0 <= d < 2 ^ 32) by (apply Z.mod_pos_bound; lia).
  assert (Hq : 0 <= d / TICK_PER_HSEC <= d).
  { split; [apply Z.div_pos; lia|]. apply Z.div_le_upper_bound; nia. }
  assert (Hh : (d / TICK_PER_HSEC) mod 2 ^ 32 = d / TICK_PER_HSEC)
    by (apply Z.mod_small; lia).
  rewrite Hh.
  assert (Hrem : 0 <= d mod TICK_PER_HSEC < TICK_PER_HSEC)
    by (apply Z.mod_pos_bound; lia).
  assert (Hres :
    (now_ticks - (if 0 <? d / TICK_PER_HSEC
                  then (start_ticks t + d / TICK_PER_HSEC * TICK_PER_HSEC)
                         mod 2 ^ 32
                  else start_ticks t)) mod 2 ^ 32
    = d mod TICK_PER_HSEC).
  { destruct (0 <? d / TICK_PER_HSEC) eqn:Hpos.
    - rewrite Zminus_mod_idemp_r.
      replace (now_ticks - (start_ticks t + d / TICK_PER_HSEC * TICK_PER_HSEC))
        with ((now_ticks - start_ticks t) - d / TICK_PER_HSEC * TICK_PER_HSEC)
        by lia.
      rewrite <- Zminus_mod_idemp_l. fold d.
      replace (d - d / TICK_PER_HSEC * TICK_PER_HSEC) with (d mod TICK_PER_HSEC)
        by (rewrite Z.mod_eq by lia; lia).
      pose proof (Z.mod_le d TICK_PER_HSEC ltac:(lia) Htick).
      apply Z.mod_small. lia.
    - apply Z.ltb_ge in Hpos.
      assert (d / TICK_PER_HSEC = 0) by lia.
      fold d. rewrite Z.mod_eq by lia. nia. }
  rewrite Hres. split; [reflexivity|]. split; [exact Hrem|].
  change (calls (slip_semgive ?x)) with (calls x).
  rewrite devif_walk_calls. cbn [calls log_call]. rewrite last_snoc.
  f_equal.
  destruct (TICK_PER_HSEC <=? d) eqn:Hle.
  - apply Z.leb_le in Hle.
    assert (0 < d / TICK_PER_HSEC) by (apply Z.div_str_pos; lia).
    apply Z.ltb_lt in H. rewrite H. reflexivity.
  - apply Z.leb_gt in Hle. rewrite Z.div_small by lia. reflexivity.
Qed.

(** ** Initialization and the interface flag *)

Lemma int16_id (x : Z) : -32768 <= x < 32768 -> int16 x = x.
Proof. intros H. unfold int16. rewrite Z.mod_small; lia. Qed.

(** X17. When the device opens and both tasks start, [slip_initialize]
    returns OK and leaves a driver structure that is all zero (interface
    down, empty buffers, nothing counted) except for the descriptor and
    the two thread IDs, with the gate free (count 1). It has opened the
    device, started the receiver and then the transmitter, registered the
    device and closed its own descriptor, in that order, and has written
    nothing to the serial line. What the structure held before does not
    matter. *)
Theorem slip_initialize_success (open_status rx_status tx_status : Z)
    (w : world) :
  0 <= open_status < 32768 -> 0 <= rx_status -> 0 <= tx_status ->
  slip_initialize open_status rx_status tx_status w
  = (mk_world
       (set_waitsem 1
          (set_txpid tx_status
             (set_rxpid rx_status
                (set_fd open_status (slip_zero SLIP_BUFSIZE)))))
       (tty_out w)
       (calls w ++ [Sys_open open_status;
                    Sys_kthread_create true rx_status;
                    Sys_kthread_create false tx_status;
                    Net_register;
                    Sys_close open_status]),
     OK).
Proof.
  intros Hopen Hrx Htx.
  assert (H1 : (open_status <? 0) = false) by (apply Z.ltb_ge; lia).
  assert (H2 : (rx_status <? 0) = false) by (apply Z.ltb_ge; lia).
  assert (H3 : (tx_status <? 0) = false) by (apply Z.ltb_ge; lia).
  cbv -[Z.ltb Z.add Z.sub int16 SLIP_BUFSIZE replicate Z.to_nat app].
  rewrite int16_id by lia. rewrite H1, H2, H3.
  rewrite <- !app_assoc. reflexivity.
Qed.

(** X18. [slip_initialize] returns the status of the first step that
    fails (the open, as it fits the 16-bit descriptor field, then the
    receiver, then the transmitter) and OK when none does, and it stops at
    that step: a task is started only if everything before it succeeded,
    and the device is registered only if everything did. In every case
    the driver structure is zeroed first, so the interface is down
    afterwards. *)
Theorem slip_initialize_status (open_status rx_status tx_status : Z)
    (w : world) :
  let r := slip_initialize open_status rx_status tx_status w in
  let st := int16 open_status in
  snd r = (if st <? 0 then st
           else if rx_status <? 0 then rx_status
           else if tx_status <? 0 then tx_status
           else OK)
  /\ bifup (priv (fst r)) = false
  /\ txnodelay (priv (fst r)) = false
  /\ rxlen (priv (fst r)) = 0
  /\ tty_out (fst r) = tty_out w
  /\ exists new,
       calls (fst r) = calls w ++ Sys_open open_status :: new
       /\ (In (Sys_kthread_create true rx_status) new <-> 0 <= st)
       /\ (In (Sys_kthread_create false tx_status) new
           <-> 0 <= st /\ 0 <= rx_status)
       /\ (In Net_register new
           <-> 0 <= st /\ 0 <= rx_status /\ 0 <= tx_status).
Proof.
  cbv zeta.
  cbv -[Z.ltb Z.le Z.add Z.sub int16 SLIP_BUFSIZE replicate Z.to_nat app In
        iff].
  destruct (int16 open_status <? 0) eqn:H1;
    [|destruct (rx_status <? 0) eqn:H2;
      [|destruct (tx_status <? 0) eqn:H3]];
    cbv beta iota;
    repeat match goal with
           | H : (_ <? _) = true |- _ => apply Z.ltb_lt in H
           | H : (_ <? _) = false |- _ => apply Z.ltb_ge in H
           end;
    split_conj; try reflexivity;
    (eexists; split; [rewrite <- ?app_assoc; reflexivity|]);
    cbn [In app]; split_conj;
    (split;
     [intros H; repeat (destruct H as [H|H]; [try discriminate H|]);
      try contradiction; lia
     |intros; first [solve [auto 8] | exfalso; lia]]).
Qed.

(** X19. Taking the interface down switches the driver off for the stack
    and for the line, and bringing it up switches it on: after
    [slip_ifdown] a notification of new data changes nothing and the
    receiver task discards any input, and after [slip_ifup] a notification
    sets [txnodelay] and signals the transmit task. Both callbacks return
    OK, change nothing but the flag, and the last one called wins. *)
Theorem slip_ifdown_ifup (w : world) :
  let wd := fst (slip_ifdown w) in
  let wu := fst (slip_ifup w) in
  snd (slip_ifdown w) = OK /\ snd (slip_ifup w) = OK
  /\ wd = on_priv (set_bifup false) w
  /\ wu = on_priv (set_bifup true) w
  /\ slip_txavail wd = (wd, OK)
  /\ (forall input, slip_rxtask wd input = Rxtask_blocked Waiting wd)
  /\ txnodelay (priv (fst (slip_txavail wu))) = true
  /\ calls (fst (slip_txavail wu)) = calls w ++ [Sys_kill (txpid (priv w)) SIGALRM]
  /\ fst (slip_ifdown wu) = wd
  /\ fst (slip_ifup wd) = wu.
Proof.
  cbv zeta. split_conj; try reflexivity.
  intros input. unfold slip_rxtask.
  apply slip_rxtask_loop_down; [reflexivity|lia].
Qed.

(** ** The two tasks back to back *)

Lemma tx_frames_nonempty (items : list (list Z * Z)) (size : nat) :
  Forall (fun item => tx_item_ok size item /\ fst item <> []) items ->
  flat_map tx_item_frame items = concat (map slip_frame (map fst items)).
Proof.
  induction 1 as [|item items [[Hlen _] Hne] _ IH]; [reflexivity|].
  cbn [flat_map map concat]. rewrite IH. f_equal.
  unfold tx_item_frame. rewrite Hlen.
  destruct (fst item); [congruence|]. reflexivity.
Qed.

(** X20. What the transmit task of one driver sends, the receiver task of
    a driver at the other end of the line hands to its stack: when the
    stack offers IPv4 packets of 1 to MTU + 2 bytes to an iteration of the
    transmit task (interface up, no loopback), the bytes that iteration
    writes make a receiver task with its interface up pass exactly those
    packets to [ipv4_input], in the order they were offered. *)
Theorem slip_link (now_ticks : Z) (items : list (list Z * Z))
    (t : txtask_state) (w : world) :
  pktsize_ok ->
  bifup (priv (tx_world t)) = true ->
  (forall buf len, devif_loopback buf len = false) ->
  Forall (fun item => tx_item_ok (length (txbuf (priv (tx_world t)))) item
                      /\ rx_sized (fst item)
                      /\ Z.land (hd 0 (fst item)) IP_VERSION_MASK
                         = IPv4_VERSION) items ->
  rxbuf_ok w -> bifup (priv w) = true -> CONFIG_NET_IPv4 = true ->
  let sent := drop (length (tty_out (tx_world t)))
                (tty_out (tx_world (slip_txtask_iteration now_ticks items t))) in
  exists w', slip_rxtask w sent = Rxtask_blocked Waiting w'
    /\ calls w' = calls w ++ map Net_ipv4_input (map fst items).
Proof.
  intros Hcfg Hup Hloop Hitems Hok Hupr H4. cbv zeta.
  rewrite slip_txtask_iteration_out; [|exact Hup|exact Hloop|].
  2: { eapply Forall_impl; [exact Hitems|]. intros item (? & _). assumption. }
  rewrite drop_app_length.
  rewrite tx_frames_nonempty
    with (size := length (txbuf (priv (tx_world t)))).
  2: { eapply Forall_impl; [exact Hitems|].
       intros item (? & (? & _) & _). auto. }
  unfold slip_rxtask. apply slip_rxtask_loop_stream; auto.
  apply Forall_fmap. eapply Forall_impl; [exact Hitems|].
  intros item (_ & ? & ?). auto.
Qed.

End Driver.

(** * The driver built for packets of 296 bytes

    The statements above, and the places where the driver departs from
    its description, on the sample states: both IP versions compiled in,
    version mask 0xf0, IPv4 0x40, IPv6 0x60, a stack that never replies. *)

Ltac byte_facts :=
  repeat constructor; unfold is_uint8, SLIP_END, SLIP_ESC; try lia;
  try discriminate.

(** C1, an instance: a packet holding an END and an ESC byte comes back
    unchanged. *)
Lemma slip_roundtrip_witness :
  decodes_to 296 world_up
    (slip_transmit_bytes (world_sending [69; 192; 219; 1])) [69; 192; 219; 1]
  /\ exists w', rx_packet w' = [69; 192; 219; 1]
       /\ slip_rxtask 296 true true 240 64 96 no_reply no_reply world_up
            (slip_transmit_bytes (world_sending [69; 192; 219; 1]))
          = Rxtask_blocked Waiting
              (slip_rxtask_dispatch true true 240 64 96 no_reply no_reply w').
Proof.
  destruct (slip_roundtrip 296 true true 240 64 96 no_reply no_reply
              (world_sending [69; 192; 219; 1]) world_up [69; 192; 219; 1])
    as [Hfull _].
  - unfold pktsize_ok. lia.
  - reflexivity.
  - byte_facts.
  - reflexivity.
  - simpl. lia.
  - destruct Hfull as [Hdec Htask]; [discriminate|].
    split; [exact Hdec|]. apply Htask. reflexivity.
Defined.

(** C1 as stated fails for the packet of length 0: its encoding is END,
    END, on which [slip_receive] does not return, so the empty packet is
    not given back. *)
Lemma slip_roundtrip_empty_counterexample :
  dev_packet (world_sending []) = []
  /\ slip_transmit_bytes (world_sending []) = [SLIP_END; SLIP_END]
  /\ ~ decodes_to 296 world_up (slip_transmit_bytes (world_sending [])) [].
Proof.
  split; [reflexivity|]. split; [reflexivity|].
  intros (w' & Hframe & _). vm_compute in Hframe. discriminate.
Qed.

(** C3. An ESC that is the first byte of a packet, with no END before it,
    is stored in the buffer by [slip_rxtask], and the byte after it is
    read in the normal state: ESC, ESC_END, END is received as the two
    bytes ESC, ESC_END. After a leading END the same bytes are received as
    the one byte END. *)
Lemma slip_rxtask_frame_esc_first :
  (exists w', slip_rxtask_frame 296 world_up [SLIP_ESC; SLIP_ESC_END; SLIP_END]
              = Rx_returned w' []
              /\ rx_packet w' = [SLIP_ESC; SLIP_ESC_END]
              /\ calls w' = [])
  /\ (exists w', slip_rxtask_frame 296 world_up
                   [SLIP_END; SLIP_ESC; SLIP_ESC_END; SLIP_END]
                 = Rx_returned w' []
                 /\ rx_packet w' = [SLIP_END])
  /\ slip_receive 296 world_up [SLIP_ESC] = Rx_blocked Escaped world_up.
Proof.
  split; [|split].
  - eexists. split; [vm_compute; reflexivity|]. split; reflexivity.
  - eexists. split; [vm_compute; reflexivity|]. reflexivity.
  - reflexivity.
Qed.

(** C4, an instance: the byte 0x41 after an ESC, with an empty buffer. *)
Lemma rx_escaped_lenient_witness :
  exists w', rx_escaped 296 65 world_up = Some w'
             /\ calls w' = [Nerr_protocol_violation 65]
             /\ rx_packet w' = [65].
Proof.
  destruct (proj1 (rx_escaped_lenient 296 ltac:(unfold pktsize_ok; lia))
              world_up 65 [])
    as (w' & Hesc & _ & Hcalls & _ & Hroom & _).
  - split; [reflexivity|]. simpl. unfold SLIP_BUFSIZE. lia.
  - unfold is_uint8. lia.
  - discriminate.
  - discriminate.
  - exists w'. split; [exact Hesc|]. split; [exact Hcalls|].
    apply Hroom. simpl. unfold SLIP_BUFSIZE. lia.
Defined.

(** C4 as stated fails when the buffer is full: after END and 298 bytes
    0x41 the receiver holds 298 bytes, and the byte 0x41 that follows an
    ESC is reported but not appended. *)
Lemma rx_escaped_full_counterexample :
  slip_rxtask_frame 296 world_up (SLIP_END :: replicate 298 65)
  = Rx_blocked Normal world_full
  /\ ~ (exists w', rx_escaped 296 65 world_full = Some w'
                   /\ rx_packet w' = rx_packet world_full ++ [65]).
Proof.
  split; [vm_compute; reflexivity|].
  intros (w' & Hesc & Hpkt).
  vm_compute in Hesc. injection Hesc as <-.
  apply (f_equal length) in Hpkt. vm_compute in Hpkt. discriminate.
Qed.

(** C5, an instance: 308 bytes 0x41 and an END. *)
Lemma rxbuf_capacity_witness :
  exists w1,
    slip_rxtask_frame 296 world_up (replicate 308 65 ++ [SLIP_END])
    = Rx_returned w1 []
    /\ rxlen (priv w1) = 298
    /\ rx_packet w1 = replicate 298 65.
Proof.
  destruct (proj2 (proj2 (proj2 (proj2 (proj2
              (rxbuf_capacity 296 true true 240 64 96 no_reply no_reply
                 ltac:(unfold pktsize_ok; lia))))))
              world_up (replicate 308 65))
    as (w1 & Hframe & Hlen & Hpkt & _).
  - split; [reflexivity|]. simpl. unfold SLIP_BUFSIZE. lia.
  - reflexivity.
  - reflexivity.
  - apply Forall_replicate. byte_facts.
  - exists w1. split; [exact Hframe|]. split; [exact Hlen|]. exact Hpkt.
Defined.

(** C6, an instance: the empty packet. *)
Lemma slip_idle_witness :
  slip_transmit_bytes (world_sending []) = [SLIP_END; SLIP_END].
Proof.
  apply (proj1 (slip_idle 296 true true 240 64 96 no_reply no_reply
                  (world_sending []))).
  reflexivity.
Defined.

(** C7, an instance: a packet whose first byte is 0. *)
Lemma slip_rxtask_dispatch_unsupported_witness :
  dev (priv (slip_rxtask_dispatch true true 240 64 96 no_reply no_reply
               (world_received 0)))
  = mk_dev RXBUF 1 (mk_stats 1 0 0 1 0 0).
Proof.
  apply (slip_rxtask_dispatch_unsupported true true 240 64 96 no_reply no_reply
           (world_received 0)).
  - vm_compute. discriminate.
  - vm_compute. discriminate.
Defined.

(** C7 as stated fails: the error counter is not the only thing that
    changes, the packet is counted as received as well. *)
Lemma slip_rxtask_dispatch_counterexample :
  Z.land (peek (rxbuf (priv (world_received 0))) 0) 240 <> 64
  /\ Z.land (peek (rxbuf (priv (world_received 0))) 0) 240 <> 96
  /\ priv (slip_rxtask_dispatch true true 240 64 96 no_reply no_reply
             (world_received 0))
     <> priv (NETDEV_RXERRORS (world_received 0))
  /\ rx_packets (d_statistics (dev (priv
       (slip_rxtask_dispatch true true 240 64 96 no_reply no_reply
          (world_received 0)))))
     <> rx_packets (d_statistics (dev (priv (world_received 0)))).
Proof.
  split; [vm_compute; discriminate|]. split; [vm_compute; discriminate|].
  split.
  - intros H. apply (f_equal (fun p => rx_packets (d_statistics (dev p)))) in H.
    vm_compute in H. discriminate.
  - vm_compute. discriminate.
Qed.

(** C8. When the device has been opened (descriptor 3) and the receiver
    task cannot be started (status -12), [slip_initialize] returns -12 and
    leaves descriptor 3 open. When the transmitter task cannot be started,
    it returns the status with descriptor 3 open and the receiver task
    (4) running. Only the successful path closes the descriptor. *)
Lemma slip_initialize_failure_leaks :
  (let r := slip_initialize 296 3 (-12) 5 world_down in
   snd r = -12
   /\ open_fds (calls (fst r)) [] = [3]
   /\ calls (fst r) = [Sys_open 3; Sys_kthread_create true (-12);
                       Nerr_start_failed])
  /\ (let r := slip_initialize 296 3 4 (-12) world_down in
      snd r = -12
      /\ open_fds (calls (fst r)) [] = [3]
      /\ started_tasks (calls (fst r)) = [4])
  /\ (let r := slip_initialize 296 (-2) 4 5 world_down in
      snd r = -2 /\ open_fds (calls (fst r)) [] = [])
  /\ (let r := slip_initialize 296 3 4 5 world_down in
      snd r = OK /\ open_fds (calls (fst r)) [] = []).
Proof. vm_compute. repeat split. Qed.

(** C9, an instance: the notification with the interface up. *)
Lemma slip_txavail_spec_witness :
  txnodelay (priv (fst (slip_txavail world_up))) = true
  /\ calls (fst (slip_txavail world_up)) = [Sys_kill 0 SIGALRM].
Proof.
  destruct (proj1 (proj2 (slip_txavail_spec world_up)) eq_refl)
    as (Hflag & Hcalls & _).
  split; [exact Hflag|exact Hcalls].
Defined.

(** C9 as stated fails with the interface down: the flag is not set and
    no signal is sent. *)
Lemma slip_txavail_down_counterexample :
  ~ (txnodelay (priv (fst (slip_txavail world_down))) = true)
  /\ calls (fst (slip_txavail world_down)) = [].
Proof. split; [vm_compute; discriminate|reflexivity]. Qed.

(** C10, an instance: the iteration that follows the transmission of a
    one-byte packet, with the interface up. *)
Lemma slip_transmit_follow_up_witness :
  exists c, is_poll c = true /\ is_sleep c = false
    /\ calls (tx_world (slip_txtask_iteration 50 no_loopback 0 []
                          (mk_txtask (fst (slip_transmit (world_sending [69]))) 0)))
       = calls (fst (slip_transmit (world_sending [69]))) ++ [c].
Proof.
  exact (proj2 (slip_transmit_follow_up 50 no_loopback) 0 []
           (mk_txtask (fst (slip_transmit (world_sending [69]))) 0) eq_refl).
Defined.

(** C10 as stated fails when the interface goes down after the
    transmission: [txnodelay] is set, and the next iteration of the
    transmit task neither sleeps nor polls. *)
Lemma slip_transmit_follow_up_counterexample :
  let w := fst (slip_ifdown (fst (slip_transmit (world_sending [69])))) in
  let t' := slip_txtask_iteration 50 no_loopback 0 [] (mk_txtask w 0) in
  txnodelay (priv w) = true
  /\ ~ (exists c, is_poll c = true /\ In c (calls (tx_world t'))).
Proof.
  cbv zeta. split; [reflexivity|].
  intros (c & _ & Hin). vm_compute in Hin. exact Hin.
Qed.

(** ** Instances of the further properties *)

(** X2, an instance: the same packet sent from two different states. *)
Lemma slip_transmit_injective_witness :
  dev_packet (world_sending [1; 192])
  = dev_packet (on_priv (set_txnodelay true) (world_sending [1; 192])).
Proof.
  apply (slip_transmit_injective (world_sending [1; 192])
           (on_priv (set_txnodelay true) (world_sending [1; 192]))).
  reflexivity.
Defined.

(** X4, an instance: three END bytes, a frame, and a byte after it. *)
Lemma slip_rxtask_frame_resync_witness :
  exists w',
    slip_rxtask_frame 296 world_up
      (replicate 3 SLIP_END ++ slip_frame [69; 192] ++ [7])
    = Rx_returned w' [7]
    /\ rx_packet w' = [69; 192].
Proof.
  destruct (slip_rxtask_frame_resync 296 world_up 3 [69; 192] [7])
    as (w' & Hframe & Hpkt & _).
  - unfold pktsize_ok. lia.
  - reflexivity.
  - split; [discriminate|]. split; [simpl; unfold SLIP_BUFSIZE; lia|].
    byte_facts.
  - exists w'. split; [exact Hframe|exact Hpkt].
Defined.

(** X5, an instance: the byte 0x41, an END, and a byte after it. *)
Lemma slip_receive_returns_at_end_witness :
  0 < rxlen (priv (world_received 65))
  /\ exists pre c, [65; 192; 7] = pre ++ c :: [7] /\ uint8 c = SLIP_END.
Proof.
  destruct (slip_receive_returns_at_end 296 world_up (world_received 65)
              [65; 192; 7] [7] eq_refl) as (Hlen & Hend & _).
  split; [exact Hlen|exact Hend].
Defined.

(** X6, an instance: a frame arriving while the interface is down. *)
Lemma slip_rxtask_down_witness :
  slip_rxtask 296 true true 240 64 96 no_reply no_reply world_down
    [192; 69; 0; 192]
  = Rxtask_blocked Waiting world_down.
Proof.
  apply (slip_rxtask_down 296 true true 240 64 96 no_reply no_reply world_down).
  reflexivity.
Defined.



(** X9, an instance: one IPv4 packet received from the initial state. *)
Lemma slip_rxtask_counts_witness :
  exists pt w',
    slip_rxtask 296 true true 240 64 96 no_reply no_reply world_up
      [192; 69; 0; 192]
    = Rxtask_blocked pt w'
    /\ rx_counted w'.
Proof.
  apply (proj2 (slip_rxtask_counts 296 true true 240 64 96 no_reply no_reply)).
  - unfold pktsize_ok. lia.
  - split; [reflexivity|]. simpl. unfold SLIP_BUFSIZE. lia.
  - reflexivity.
Defined.

(** X10, an instance: the same input. *)
Lemma slip_rxtask_keeps_witness :
  exists pt w',
    slip_rxtask 296 true true 240 64 96 no_reply no_reply world_up
      [192; 69; 0; 192]
    = Rxtask_blocked pt w'
    /\ txbuf (priv w') = txbuf (priv world_up)
    /\ waitsem (priv w') = waitsem (priv world_up).
Proof.
  destruct (slip_rxtask_keeps 296 true true 240 64 96 no_reply no_reply
              world_up [192; 69; 0; 192])
    as (pt & w' & Hrun & Htx & _ & _ & _ & _ & Hsem).
  - unfold pktsize_ok. lia.
  - split; [reflexivity|]. simpl. unfold SLIP_BUFSIZE. lia.
  - exists pt, w'. split; [exact Hrun|]. split; [exact Htx|exact Hsem].
Defined.

(** X11, an instance: two IPv4 packets, the second holding an END byte. *)
Lemma slip_rxtask_stream_witness :
  exists w',
    slip_rxtask 296 true true 240 64 96 no_reply no_reply world_up
      (concat (map slip_frame [[69; 1]; [69; 192; 2]]))
    = Rxtask_blocked Waiting w'
    /\ calls w' = [Net_ipv4_input [69; 1]; Net_ipv4_input [69; 192; 2]].
Proof.
  apply (proj2 (slip_rxtask_stream 296 true true 240 64 96 no_reply no_reply
                  world_up [[69; 1]; [69; 192; 2]]
                  ltac:(unfold pktsize_ok; lia)
                  ltac:(split; [reflexivity|simpl; unfold SLIP_BUFSIZE; lia])
                  eq_refl eq_refl
                  ltac:(repeat constructor; try discriminate;
                        unfold SLIP_BUFSIZE, is_uint8; simpl; lia))).
Defined.

(** X12, an instance: three items, the second without data. *)
Lemma slip_txtask_sends_witness :
  tty_out (tx_world (slip_txtask_iteration 50 no_loopback 0
                       [([69; 1], 2); ([], 0); ([192], 1)]
                       (mk_txtask world_up 0)))
  = [192; 69; 1; 192; 192; 219; 220; 192].
Proof.
  apply (slip_txtask_sends 50 no_loopback 0
           [([69; 1], 2); ([], 0); ([192], 1)] (mk_txtask world_up 0)).
  - reflexivity.
  - intros buf len. reflexivity.
  - repeat constructor; simpl; lia.
Defined.

(** X13, an instance: an iteration without the flag, interface up. *)
Lemma slip_txtask_sleeps_witness :
  exists after,
    calls (tx_world (slip_txtask_iteration 50 no_loopback 0 []
                       (mk_txtask world_up 0)))
    = Sys_usleep 1000000 :: after
    /\ exists c, is_poll c = true /\ after = [c].
Proof.
  exact (slip_txtask_sleeps 50 no_loopback 0 [] (mk_txtask world_up 0) eq_refl).
Defined.

(** X14, an instance: an iteration with the interface down. *)
Lemma slip_txtask_down_witness :
  tty_out (tx_world (slip_txtask_iteration 50 no_loopback 0 [([69], 1)]
                       (mk_txtask world_down 0)))
  = []
  /\ calls (tx_world (slip_txtask_iteration 50 no_loopback 0 [([69], 1)]
                        (mk_txtask world_down 0)))
     = [Sys_usleep SLIP_WDDELAY].
Proof.
  destruct (slip_txtask_down 50 no_loopback 0 [([69], 1)]
              (mk_txtask world_down 0) eq_refl)
    as (Hout & _ & _ & _ & _ & _ & _ & _ & _ & Hcalls).
  split; [exact Hout|exact Hcalls].
Defined.

(** X16, an instance: 110 ticks elapsed, 50 ticks to the half-second. *)
Lemma slip_txtask_ticks_witness :
  (120 - start_ticks (slip_txtask_iteration 50 no_loopback 120 []
                        (mk_txtask world_up 10))) mod 2 ^ 32
  = 10.
Proof.
  apply (slip_txtask_ticks 50 no_loopback 120 [] (mk_txtask world_up 10)).
  - lia.
  - reflexivity.
Defined.

(** X17, an instance: descriptor 3, tasks 4 and 5. *)
Lemma slip_initialize_success_witness :
  snd (slip_initialize 296 3 4 5 world_up) = OK
  /\ calls (fst (slip_initialize 296 3 4 5 world_up))
     = [Sys_open 3; Sys_kthread_create true 4; Sys_kthread_create false 5;
        Net_register; Sys_close 3]
  /\ bifup (priv (fst (slip_initialize 296 3 4 5 world_up))) = false
  /\ waitsem (priv (fst (slip_initialize 296 3 4 5 world_up))) = 1.
Proof.
  rewrite (slip_initialize_success 296 3 4 5 world_up) by lia.
  repeat split.
Defined.

(** X20, an instance: two packets from one driver to the other. *)
Lemma slip_link_witness :
  exists w',
    slip_rxtask 296 true true 240 64 96 no_reply no_reply world_up
      (drop (length (tty_out world_up))
         (tty_out (tx_world (slip_txtask_iteration 50 no_loopback 0
                               [([69; 1], 2); ([69; 192], 2)]
                               (mk_txtask world_up 0)))))
    = Rxtask_blocked Waiting w'
    /\ calls w' = [Net_ipv4_input [69; 1]; Net_ipv4_input [69; 192]].
Proof.
  apply (slip_link 296 true true 240 64 96 50 no_reply no_reply no_loopback 0
           [([69; 1], 2); ([69; 192], 2)] (mk_txtask world_up 0) world_up).
  - unfold pktsize_ok. lia.
  - reflexivity.
  - intros buf len. reflexivity.
  - repeat constructor; try discriminate;
      unfold SLIP_BUFSIZE, is_uint8; simpl; lia.
  - split; [reflexivity|]. simpl. unfold SLIP_BUFSIZE. lia.
  - reflexivity.
  - reflexivity.
Defined.
